(** * mplexporter: the renderer contract and the style utilities

    A shallow embedding of [mplexporter/utils.py], [mplexporter/renderers/base.py]
    and [mplexporter/renderer.py].

    - Python floats are IEEE binary64 numbers: Rocq's primitive [float].
    - Python values that travel through style dictionaries are a small
      universe [pyval]; dictionaries with string keys are [gmap string pyval].
    - A call that can raise returns a [result]; code that also mutates the
      renderer object runs in the state-and-exception monad [M].
    - matplotlib and the builtins the code calls ([colorConverter.to_rgb],
      [Path.iter_segments], [str], ...) are parameters of the sections that
      use them.
    - The code is Python 2 ([itertools.izip], [itertools.imap]); the
      embedding follows that language. *)

From Stdlib Require Import ZArith String Ascii List Lia Bool.
From Stdlib Require Import Uint63 PrimFloat SpecFloat FloatOps.
From stdpp Require Import base strings pretty gmap list.
Import ListNotations.

Local Open Scope Z_scope.

(** ** Exceptions and results *)

Inductive exn : Type :=
| NotImplementedError (msg : string)
| KeyError (key : string)
| TypeError (msg : string)
| NameError (name : string)
| ValueError (msg : string)
| IndexError (msg : string)
| OverflowError (msg : string)
| OtherError (msg : string).

Inductive result (A : Type) : Type :=
| Ok (a : A)
| Raise (e : exn).
Arguments Ok {A} a.
Arguments Raise {A} e.

Definition rbind {A B} (r : result A) (k : A -> result B) : result B :=
  match r with
  | Ok a => k a
  | Raise e => Raise e
  end.

Declare Scope result_scope.
Delimit Scope result_scope with res.
Notation "'let?' x ':=' r 'in' k" := (rbind r (fun x => k))
  (at level 10, x pattern, r at level 100, k at level 200) : result_scope.
Local Open Scope result_scope.

(** ** Python values *)

#[warnings="-register-all"]
Inductive pyval : Type :=
| PNone
| PInt (z : Z)
| PFloat (f : float)
| PStr (s : string)
| PTuple (items : list pyval)
| PList (items : list pyval).

(** [int(f)] on a float: truncation toward zero; [nan] and the infinities
    raise. *)
Definition py_int_of_float (f : float) : result Z :=
  match Prim2SF f with
  | S754_zero _ => Ok 0
  | S754_finite s m e =>
      let mag := if 0 <=? e then Z.shiftl (Z.pos m) e
                 else Z.shiftr (Z.pos m) (- e) in
      Ok (if s then - mag else mag)
  | S754_infinity _ =>
      Raise (OverflowError "cannot convert float infinity to integer")
  | S754_nan => Raise (ValueError "cannot convert float NaN to integer")
  end.

(** [float(z)] for the small integers used here (exact below 2^53). *)
Definition py_float_of_Z (z : Z) : float :=
  if z <? 0 then PrimFloat.opp (PrimFloat.of_uint63 (Uint63.of_Z (- z)))
  else PrimFloat.of_uint63 (Uint63.of_Z z).

(** [z == f] between an int and a float: exact comparison of the values. *)
Definition float_eq_Z (f : float) (z : Z) : bool :=
  match Prim2SF f with
  | S754_zero _ => z =? 0
  | S754_finite s m e =>
      let sm := if s then Z.neg m else Z.pos m in
      if 0 <=? e then z =? Z.shiftl sm e
      else (Z.shiftl z (- e) =? sm)
  | _ => false
  end.

(** Python's [==] on the universe. *)
Fixpoint py_eqb (a b : pyval) : bool :=
  let fix all2 (l m : list pyval) : bool :=
    match l, m with
    | [], [] => true
    | x :: l', y :: m' => py_eqb x y && all2 l' m'
    | _, _ => false
    end in
  match a, b with
  | PNone, PNone => true
  | PInt x, PInt y => x =? y
  | PFloat x, PFloat y => PrimFloat.eqb x y
  | PInt x, PFloat y => float_eq_Z y x
  | PFloat x, PInt y => float_eq_Z x y
  | PStr s, PStr t => String.eqb s t
  | PTuple l, PTuple m => all2 l m
  | PList l, PList m => all2 l m
  | _, _ => false
  end.

(** Lists are unhashable, and so is a tuple that holds one. *)
Fixpoint hashable (v : pyval) : bool :=
  match v with
  | PList _ => false
  | PTuple l => forallb hashable l
  | _ => true
  end.

(** A dictionary whose keys are arbitrary hashable values: an association
    list without repeated keys; [dict_set] overwrites, as a dict does. *)
Fixpoint dict_set {V} (k : pyval) (v : V) (d : list (pyval * V)) : list (pyval * V) :=
  match d with
  | [] => [(k, v)]
  | (k', v') :: d' =>
      if py_eqb k' k then (k', v) :: d' else (k', v') :: dict_set k v d'
  end.

Fixpoint dict_get {V} (k : pyval) (d : list (pyval * V)) : option V :=
  match d with
  | [] => None
  | (k', v') :: d' => if py_eqb k' k then Some v' else dict_get k d'
  end.

(** Sequence indexing [s[i]], with Python's negative indices. *)
Definition py_index {A} (l : list A) (i : Z) : result A :=
  let n := Z.of_nat (length l) in
  let j := if i <? 0 then i + n else i in
  if (j <? 0) || (n <=? j) then Raise (IndexError "index out of range")
  else match nth_error l (Z.to_nat j) with
       | Some a => Ok a
       | None => Raise (IndexError "index out of range")
       end.

Fixpoint string_chars (s : string) : list string :=
  match s with
  | EmptyString => []
  | String c s' => String c EmptyString :: string_chars s'
  end.

Definition py_getitem (v : pyval) (i : Z) : result pyval :=
  match v with
  | PStr s => let? c := py_index (string_chars s) i in Ok (PStr c)
  | PTuple l | PList l => py_index l i
  | _ => Raise (TypeError "object is not subscriptable")
  end.

(** Iterating over a value ([iter(v)]). *)
Definition py_iter (v : pyval) : result (list pyval) :=
  match v with
  | PStr s => Ok (map PStr (string_chars s))
  | PTuple l | PList l => Ok l
  | _ => Raise (TypeError "object is not iterable")
  end.

(** [sep.join(strings)]. *)
Fixpoint join (sep : string) (l : list string) : string :=
  match l with
  | [] => ""
  | [s] => s
  | s :: l' => s +:+ sep +:+ join sep l'
  end.

(** * utils.py *)

Module Utils.

(** The names bound at the top level of [utils.py]: its imports (lines 5-16)
    and its own definitions. A global name that is neither here nor a builtin
    raises [NameError] when it is evaluated. *)
Definition utils_globals : list string :=
  [ "itertools"; "io"; "base64"; "np"; "matplotlib"; "colorConverter";
    "Path"; "MarkerStyle"; "Affine2D"; "ticker";
    "color_to_hex"; "many_to_one"; "LINESTYLES"; "get_dasharray";
    "PATH_DICT"; "SVG_path"; "get_path_style"; "get_line_style";
    "get_marker_style"; "get_text_style"; "get_axis_properties";
    "image_to_base64" ]%string.

Definition load_global (name : string) : result unit :=
  if existsb (String.eqb name) utils_globals then Ok tt
  else Raise (NameError name).

(** ** [color_to_hex] *)

Definition hex_digit_upper (d : Z) : ascii :=
  nth (Z.to_nat d)
      [ "0"; "1"; "2"; "3"; "4"; "5"; "6"; "7";
        "8"; "9"; "A"; "B"; "C"; "D"; "E"; "F" ]%char "0"%char.

Fixpoint hex_digits (fuel : nat) (n : Z) (acc : string) : string :=
  match fuel with
  | O => acc
  | S fuel' =>
      let acc' := String (hex_digit_upper (n mod 16)) acc in
      if n <? 16 then acc' else hex_digits fuel' (n / 16) acc'
  end.

(** ['{:X}'.format(n)] for [0 <= n]. *)
Definition format_X (n : Z) : string :=
  hex_digits (S (Z.to_nat (Z.log2 n))) n "".

(** ['{:02X}'.format(n)]: upper-case hex, sign-aware zero padding to
    width 2. *)
Definition format_02X (n : Z) : string :=
  if n <? 0 then "-" +:+ format_X (- n)
  else let d := format_X n in
       if (String.length d <? 2)%nat then "0" +:+ d else d.

Section ColorToHex.
(** [matplotlib.colors.colorConverter.to_rgb]. *)
Variable to_rgb : pyval -> result (float * float * float).

Definition color_to_hex (color : pyval) : result string :=
  if existsb (fun e => py_eqb e color) [PStr "none"; PStr "None"; PNone]
  then Ok "none"%string
  else
    let? rgb := to_rgb color in
    let '(r, g, b) := rgb in
    let? ir := py_int_of_float (255 * r)%float in
    let? ig := py_int_of_float (255 * g)%float in
    let? ib := py_int_of_float (255 * b)%float in
    Ok ("#" +:+ format_02X ir +:+ format_02X ig +:+ format_02X ib).
End ColorToHex.

(** ** [LINESTYLES] and [get_dasharray] *)

(** [dict((key, val) for keys, val in input_dict.items() for key in keys)] *)
Definition many_to_one {V} (input_dict : list (list pyval * V)) : list (pyval * V) :=
  fold_left
    (fun d '(keys, val) => fold_left (fun d key => dict_set key val d) keys d)
    input_dict [].

Definition LINESTYLES : list (pyval * string) :=
  many_to_one
    [ ([PStr "solid"; PStr "-"; PTuple [PNone; PNone]], "10,0");
      ([PStr "dashed"; PStr "--"], "6,6");
      ([PStr "dotted"; PStr ":"], "2,2");
      ([PStr "dashdot"; PStr "-."], "4,4,2,4");
      ([PStr ""; PStr " "; PStr "None"; PStr "none"], "none") ]%string.

(** [d.get(key, None)] and [d[key]] on a dict keyed by values. *)
Definition dict_get_default {V} (d : list (pyval * V)) (key : pyval) : result (option V) :=
  if hashable key then Ok (dict_get key d)
  else Raise (TypeError "unhashable type").

Definition dict_getitem {V} (d : list (pyval * V)) (key : pyval) : result V :=
  let? o := dict_get_default d key in
  match o with
  | Some v => Ok v
  | None => Raise (KeyError "key")
  end.

(** A matplotlib line or path object, as [get_dasharray] sees it: its
    instance [__dict__] and what [get_linestyle()] returns. *)
Record mplobj : Type := {
  obj_dict : gmap string pyval;
  get_linestyle : pyval
}.

Section GetDasharray.
(** The builtin [str]. *)
Variable py_str : pyval -> string.

(** The value is the pair of what the call returns or raises and the
    warnings it has issued. *)
Definition get_dasharray (obj : mplobj) (i : option Z) : result string * list string :=
  match obj_dict obj !! "_dashSeq"%string with
  | Some (PInt _ as seq) | Some (PFloat _ as seq) | Some (PStr _ as seq)
  | Some (PTuple _ as seq) | Some (PList _ as seq) =>
      (let? items := py_iter seq in Ok (join "," (map py_str items)), [])
  | Some PNone | None =>
      let ls := get_linestyle obj in
      match (match i with Some i => py_getitem ls i | None => Ok ls end) with
      | Raise e => (Raise e, [])
      | Ok ls =>
          match dict_get_default LINESTYLES ls with
          | Raise e => (Raise e, [])
          | Ok (Some dasharray) => (Ok dasharray, [])
          | Ok None =>
              match load_global "warnings" with
              | Raise e => (Raise e, [])
              | Ok _ =>
                  let w := ("dash style '" +:+ py_str ls
                            +:+ "' not understood: defaulting to solid.")%string in
                  (dict_getitem LINESTYLES (PStr "-"), [w])
              end
          end
      end
  end.
End GetDasharray.

(** ** [PATH_DICT] and [SVG_path] *)

(** The integer codes of [matplotlib.path.Path]. *)
Module Path.
Definition STOP : Z := 0.
Definition MOVETO : Z := 1.
Definition LINETO : Z := 2.
Definition CURVE3 : Z := 3.
Definition CURVE4 : Z := 4.
Definition CLOSEPOLY : Z := 79.
End Path.

Definition PATH_DICT : gmap Z string :=
  <[Path.CLOSEPOLY := "Z"%string]>
  (<[Path.CURVE4 := "C"%string]>
  (<[Path.CURVE3 := "S"%string]>
  (<[Path.MOVETO := "M"%string]>
  (<[Path.LINETO := "L"%string]> ∅)))).

Definition py_repr_Z (z : Z) : string := pretty z.

(** [np.array(flat).reshape(-1, 2)] *)
Fixpoint reshape_n2 (flat : list float) : result (list (float * float)) :=
  match flat with
  | [] => Ok []
  | x :: y :: rest => let? r := reshape_n2 rest in Ok ((x, y) :: r)
  | [_] => Raise (ValueError "total size of new array must be unchanged")
  end.

(** The list comprehension of [SVG_path] (lines 102-105): each segment gives
    its coordinates (none for a close) and the letter of its code. *)
Fixpoint vc_tuples_of (segments : list (list float * Z)) : result (list (list float * string)) :=
  match segments with
  | [] => Ok []
  | (vertices, path_code) :: segments' =>
      let v := if negb (path_code =? Path.CLOSEPOLY) then vertices else [] in
      match PATH_DICT !! path_code with
      | None => Raise (KeyError (py_repr_Z path_code))
      | Some c => let? rest := vc_tuples_of segments' in Ok ((v, c) :: rest)
      end
  end.

Section SVGPath.
(** [matplotlib.path.Path] with the two methods the codec calls, and the
    transform objects it is handed. [iter_segments] yields pairs of a flat
    coordinate array and an integer code. *)
Context {MplPath Transform : Type}.
Variable transformed : MplPath -> Transform -> MplPath.
Variable iter_segments : MplPath -> bool -> list (list float * Z).

Definition SVG_path (path : MplPath) (transform : option Transform) (simplify : bool)
  : result (list (float * float) * list string) :=
  let path := match transform with
              | Some t => transformed path t
              | None => path
              end in
  let? vc_tuples := vc_tuples_of (iter_segments path simplify) in
  match vc_tuples with
  | [] => Ok ([], [])
  | _ =>
      let vertices := map fst vc_tuples in
      let codes := map snd vc_tuples in
      let? vertices := reshape_n2 (concat vertices) in
      Ok (vertices, codes)
  end.
End SVGPath.

End Utils.

(** * The renderer classes *)

(** ** What both [Renderer] classes share *)

Definition point : Type := float * float.
Definition matrix : Type := list (list float).

(** [np.eye(3)] *)
Definition np_eye3 : matrix := [[1; 0; 0]; [0; 1; 0]; [0; 0; 1]]%float.

(** [np.size(v)]: the number of scalars of the (rectangular) array that
    [np.array(v)] builds; a scalar has size 1. *)
Fixpoint np_size (v : pyval) : nat :=
  let fix total (l : list pyval) : nat :=
    match l with
    | [] => O
    | x :: l' => (np_size x + total l')%nat
    end in
  match v with
  | PTuple l | PList l => total l
  | _ => 1%nat
  end.

(** [d[key]] and [d.pop(key)] on a dictionary with string keys. *)
Definition dict_lookup (d : gmap string pyval) (key : string) : result pyval :=
  match d !! key with
  | Some v => Ok v
  | None => Raise (KeyError key)
  end.

Definition dict_pop (d : gmap string pyval) (key : string)
  : result (pyval * gmap string pyval) :=
  match d !! key with
  | Some v => Ok (v, delete key d)
  | None => Raise (KeyError key)
  end.

(** [dict(key=v, **kwargs)]: a keyword given twice is a [TypeError]. *)
Definition dict_kw (key : string) (v : pyval) (kwargs : gmap string pyval)
  : result (gmap string pyval) :=
  match kwargs !! key with
  | Some _ => Raise (TypeError "dict() got multiple values for keyword argument")
  | None => Ok (<[key := v]> kwargs)
  end.

(** An axes object, as the grid and zoom predicates see it. *)
Record Axis (Gridline : Type) : Type := {
  _gridOnMajor : bool;
  get_gridlines : list Gridline
}.
Arguments _gridOnMajor {Gridline} _.
Arguments get_gridlines {Gridline} _.

Record Axes (Gridline : Type) : Type := {
  get_navigate : bool;
  xaxis : Axis Gridline;
  yaxis : Axis Gridline
}.
Arguments get_navigate {Gridline} _.
Arguments xaxis {Gridline} _.
Arguments yaxis {Gridline} _.

(** [itertools.cycle]: the elements still to come in the current pass and
    the saved copy replayed when the pass is over. *)
Record cycle (A : Type) : Type := {
  pending : list A;
  saved : list A
}.
Arguments pending {A} _.
Arguments saved {A} _.

Definition it_cycle {A} (l : list A) : cycle A :=
  {| pending := l; saved := l |}.

(** [next(c)]; [None] is [StopIteration]. *)
Definition cycle_next {A} (c : cycle A) : option (A * cycle A) :=
  match pending c with
  | x :: rest => Some (x, {| pending := rest; saved := saved c |})
  | [] =>
      match saved c with
      | x :: rest => Some (x, {| pending := rest; saved := saved c |})
      | [] => None
      end
  end.

(** A generator function with one bare [yield], decorated with
    [@contextmanager]: the code before the [yield] and the code after it. *)
Record generator_cm (State : Type) : Type := {
  before_yield : State -> result unit * State;
  after_yield : State -> result unit * State
}.
Arguments before_yield {State} _ _.
Arguments after_yield {State} _ _.

(** [with cm: body]. [__enter__] runs the generator to its [yield]. When the
    body returns, [__exit__] resumes the generator, which runs the code after
    the [yield]. When the body raises, [__exit__] throws the exception into
    the generator at the [yield]; the [yield] is not inside a [try], so the
    generator ends there and the exception goes on to the caller. *)
Definition with_statement {State} (cm : generator_cm State)
    (body : State -> result unit * State) : State -> result unit * State :=
  fun s =>
    match before_yield cm s with
    | (Raise e, s1) => (Raise e, s1)
    | (Ok _, s1) =>
        match body s1 with
        | (Raise e, s2) => (Raise e, s2)
        | (Ok _, s2) => after_yield cm s2
        end
    end.

(** Figure and axes properties, and style records: dictionaries with string
    keys. *)
Abbreviation props := (gmap string pyval).

(** ** renderers/base.py *)

Module Base.
Section Renderer.
Context {Figure Gridline MplObject : Type}.
(** [colorConverter.to_rgb] and [Affine2D(m).transform(vertices)]. *)
Variable to_rgb : pyval -> result (float * float * float).
Variable affine_transform : matrix -> list point -> list point.

(** A call received by one of the methods a concrete renderer overrides. *)
Inductive call : Type :=
| open_figure_call (fig : Figure) (properties : props)
| close_figure_call (fig : Figure)
| open_axes_call (ax : Axes Gridline) (properties : props)
| close_axes_call (ax : Axes Gridline)
| draw_path_call (data : list point) (coordinates : string)
    (pathcodes : list string) (style : props) (offset : option point)
    (offset_coordinates : string) (mplobj : option MplObject).

(** The renderer object: its attributes ([None] when the attribute has
    never been assigned, [Some None] when it holds Python's [None]), the
    warnings issued, and the calls received by the overridable methods. *)
Record renderer : Type := {
  _current_fig : option (option Figure);
  _fig_properties : option props;
  _current_ax : option (option (Axes Gridline));
  _ax_properties : option props;
  warned : list string;
  calls : list call
}.

Definition M (A : Type) : Type := renderer -> result A * renderer.

Definition ret {A} (a : A) : M A := fun s => (Ok a, s).
Definition raise {A} (e : exn) : M A := fun s => (Raise e, s).
Definition lift {A} (r : result A) : M A := fun s => (r, s).
Definition bind {A B} (m : M A) (k : A -> M B) : M B :=
  fun s =>
    match m s with
    | (Ok a, s') => k a s'
    | (Raise e, s') => (Raise e, s')
    end.

Definition set_current_fig (v : option Figure) : M unit := fun s =>
  (Ok tt, {| _current_fig := Some v; _fig_properties := _fig_properties s;
             _current_ax := _current_ax s; _ax_properties := _ax_properties s;
             warned := warned s; calls := calls s |}).
Definition set_fig_properties (p : props) : M unit := fun s =>
  (Ok tt, {| _current_fig := _current_fig s; _fig_properties := Some p;
             _current_ax := _current_ax s; _ax_properties := _ax_properties s;
             warned := warned s; calls := calls s |}).
Definition set_current_ax (v : option (Axes Gridline)) : M unit := fun s =>
  (Ok tt, {| _current_fig := _current_fig s; _fig_properties := _fig_properties s;
             _current_ax := Some v; _ax_properties := _ax_properties s;
             warned := warned s; calls := calls s |}).
Definition set_ax_properties (p : props) : M unit := fun s =>
  (Ok tt, {| _current_fig := _current_fig s; _fig_properties := _fig_properties s;
             _current_ax := _current_ax s; _ax_properties := Some p;
             warned := warned s; calls := calls s |}).
(** [warnings.warn(msg)] *)
Definition warnings_warn (msg : string) : M unit := fun s =>
  (Ok tt, {| _current_fig := _current_fig s; _fig_properties := _fig_properties s;
             _current_ax := _current_ax s; _ax_properties := _ax_properties s;
             warned := warned s ++ [msg]; calls := calls s |}).
Definition record_call (c : call) : M unit := fun s =>
  (Ok tt, {| _current_fig := _current_fig s; _fig_properties := _fig_properties s;
             _current_ax := _current_ax s; _ax_properties := _ax_properties s;
             warned := warned s; calls := calls s ++ [c] |}).

Notation "m1 ;; m2" := (bind m1 (fun _ => m2))
  (at level 100, m2 at level 200, only parsing, right associativity).
Notation "x <- m1 ;; m2" := (bind m1 (fun x => m2))
  (at level 100, m1 at next level, m2 at level 200, only parsing,
   right associativity).

(** The class a renderer object belongs to: what each overridable method
    returns or raises when it is called. *)
Variable methods : call -> result unit.

(** [self.method(...)]: the call is received, then the method's own code
    decides the outcome. *)
Definition invoke (c : call) : M unit :=
  record_call c ;; lift (methods c).

(** The methods as [Renderer] itself defines them (lines 62-108, 271-306):
    the four hooks are [pass], [draw_path] is abstract. *)
Definition Renderer_methods (c : call) : result unit :=
  match c with
  | open_figure_call _ _ | close_figure_call _
  | open_axes_call _ _ | close_axes_call _ => Ok tt
  | draw_path_call _ _ _ _ _ _ _ => Raise (NotImplementedError "")
  end.

(** [bool(ax and ax.get_navigate())] *)
Definition ax_zoomable (ax : option (Axes Gridline)) : bool :=
  match ax with
  | None => false
  | Some a => get_navigate a
  end.

(** [bool(ax and ax.xaxis._gridOnMajor and ax.yaxis.get_gridlines())]:
    an axes object is truthy, a list is truthy when it is not empty. *)
Definition ax_has_xgrid (ax : option (Axes Gridline)) : bool :=
  match ax with
  | None => false
  | Some a =>
      if _gridOnMajor (xaxis a)
      then match get_gridlines (yaxis a) with [] => false | _ => true end
      else false
  end.

(** [bool(ax and ax.yaxis._gridOnMajor and ax.yaxis.get_gridlines())] *)
Definition ax_has_ygrid (ax : option (Axes Gridline)) : bool :=
  match ax with
  | None => false
  | Some a =>
      if _gridOnMajor (yaxis a)
      then match get_gridlines (yaxis a) with [] => false | _ => true end
      else false
  end.

(** [hasattr(self, name) and self.name is not None] *)
Definition is_set {A} (attr : option (option A)) : bool :=
  match attr with
  | Some (Some _) => true
  | _ => false
  end.

Definition draw_figure (fig : Figure) (properties : props) : generator_cm renderer :=
  {| before_yield :=
       (fun s =>
          (if is_set (_current_fig s)
           then warnings_warn "figure embedded in figure: something is wrong"
           else ret tt) s) ;;
       set_current_fig (Some fig) ;;
       set_fig_properties properties ;;
       invoke (open_figure_call fig properties);
     after_yield :=
       invoke (close_figure_call fig) ;;
       set_current_fig None ;;
       set_fig_properties ∅ |}.

Definition draw_axes (ax : Axes Gridline) (properties : props) : generator_cm renderer :=
  {| before_yield :=
       (fun s =>
          (if is_set (_current_ax s)
           then warnings_warn "axes embedded in axes: something is wrong"
           else ret tt) s) ;;
       set_current_ax (Some ax) ;;
       set_ax_properties properties ;;
       invoke (open_axes_call ax properties);
     after_yield :=
       invoke (close_axes_call ax) ;;
       set_current_ax None ;;
       set_ax_properties ∅ |}.

Definition draw_path (data : list point) (coordinates : string)
    (pathcodes : list string) (style : props) (offset : option point)
    (offset_coordinates : string) (mplobj : option MplObject) : M unit :=
  invoke (draw_path_call data coordinates pathcodes style offset
            offset_coordinates mplobj).

Definition draw_line (data : list point) (coordinates : string) (style : props)
    (mplobj : option MplObject) : M unit :=
  let pathcodes := "M"%string :: repeat "L"%string (length data - 1) in
  pathstyle <- lift (dict_kw "facecolor" (PStr "none") style) ;;
  popped <- lift (dict_pop pathstyle "color") ;;
  let pathstyle := <["edgecolor"%string := fst popped]> (snd popped) in
  popped <- lift (dict_pop pathstyle "linewidth") ;;
  let pathstyle := <["edgewidth"%string := fst popped]> (snd popped) in
  draw_path data coordinates pathcodes pathstyle None "data" mplobj.

(** The six cycles that [izip] advances in step. *)
Record izip6 : Type := {
  z_paths : cycle (list point * list string);
  z_transforms : cycle matrix;
  z_offsets : cycle point;
  z_edgecolor : cycle pyval;
  z_linewidth : cycle pyval;
  z_facecolor : cycle pyval
}.

Definition element : Type :=
  (list point * list string) * matrix * point * pyval * pyval * pyval.

(** [next] on the [izip]: one element of each cycle, in order; the first
    exhausted cycle ends the iteration. *)
Definition izip_next (z : izip6) : option (element * izip6) :=
  match cycle_next (z_paths z) with
  | None => None
  | Some (path, c1) =>
  match cycle_next (z_transforms z) with
  | None => None
  | Some (path_transform, c2) =>
  match cycle_next (z_offsets z) with
  | None => None
  | Some (offset, c3) =>
  match cycle_next (z_edgecolor z) with
  | None => None
  | Some (ec, c4) =>
  match cycle_next (z_linewidth z) with
  | None => None
  | Some (lw, c5) =>
  match cycle_next (z_facecolor z) with
  | None => None
  | Some (fc, c6) =>
      Some ((path, path_transform, offset, ec, lw, fc),
            {| z_paths := c1; z_transforms := c2; z_offsets := c3;
               z_edgecolor := c4; z_linewidth := c5; z_facecolor := c6 |})
  end end end end end end.

(** [islice(it, N)]: the iterator and the number of elements still allowed. *)
Definition islice : Type := izip6 * nat.

(** [path_transforms], or [[np.eye(3)]] when it is [None] or empty. *)
Definition transforms_or_identity (path_transforms : option (list matrix)) : list matrix :=
  match path_transforms with
  | None | Some [] => [np_eye3]
  | Some l => l
  end.

(** [color], or [['none']] when [np.size(color) == 0]. *)
Definition colors_or_none (color : pyval) : pyval :=
  if (np_size color =? 0)%nat then PList [PStr "none"] else color.

Definition _iter_path_collection
    (paths : list (list point * list string))
    (path_transforms : option (list matrix))
    (offsets : list point) (styles : props) : result islice :=
  let N := Nat.max (length paths) (length offsets) in
  let path_transforms := transforms_or_identity path_transforms in
  let? edgecolor := dict_lookup styles "edgecolor" in
  let edgecolor := colors_or_none edgecolor in
  let? facecolor := dict_lookup styles "facecolor" in
  let facecolor := colors_or_none facecolor in
  let? linewidth := dict_lookup styles "linewidth" in
  let? ec := py_iter edgecolor in
  let? lw := py_iter linewidth in
  let? fc := py_iter facecolor in
  Ok ({| z_paths := it_cycle paths;
         z_transforms := it_cycle path_transforms;
         z_offsets := it_cycle offsets;
         z_edgecolor := it_cycle ec;
         z_linewidth := it_cycle lw;
         z_facecolor := it_cycle fc |}, N).

(** The body of the [for] loop of [draw_path_collection] (lines 206-220);
    it returns the new value of the local [path_coordinates]. *)
Definition draw_collection_element (tup : element) (path_coordinates : string)
    (offset_coordinates : string) (styles : props) (mplobj : option MplObject)
  : M string :=
  let '(path, path_transform, offset, ec, lw, fc) := tup in
  let '(vertices, pathcodes) := path in
  let vertices := affine_transform path_transform vertices in
  let path_coordinates :=
    if String.eqb path_coordinates "figure" then "points"%string
    else path_coordinates in
  edgecolor <- lift (Utils.color_to_hex to_rgb ec) ;;
  facecolor <- lift (Utils.color_to_hex to_rgb fc) ;;
  alpha <- lift (dict_lookup styles "alpha") ;;
  zorder <- lift (dict_lookup styles "zorder") ;;
  let style : props :=
    <["edgecolor"%string := PStr edgecolor]>
    (<["facecolor"%string := PStr facecolor]>
    (<["edgewidth"%string := lw]>
    (<["dasharray"%string := PStr "10,0"]>
    (<["alpha"%string := alpha]>
    (<["zorder"%string := zorder]> ∅))))) in
  draw_path vertices path_coordinates pathcodes style (Some offset)
    offset_coordinates mplobj ;;
  ret path_coordinates.

(** [for tup in islice: ...]: at most [n] elements are taken. *)
Fixpoint for_each_element (n : nat) (z : izip6) (path_coordinates : string)
    (offset_coordinates : string) (styles : props) (mplobj : option MplObject)
  : M unit :=
  match n with
  | O => ret tt
  | S n' =>
      match izip_next z with
      | None => ret tt
      | Some (tup, z') =>
          path_coordinates <-
            draw_collection_element tup path_coordinates offset_coordinates
              styles mplobj ;;
          for_each_element n' z' path_coordinates offset_coordinates styles mplobj
      end
  end.

Definition draw_path_collection
    (paths : list (list point * list string)) (path_coordinates : string)
    (path_transforms : option (list matrix)) (offsets : list point)
    (offset_coordinates : string) (offset_order : string) (styles : props)
    (mplobj : option MplObject) : M unit :=
  if String.eqb offset_order "before"
  then raise (NotImplementedError "offset before transform")
  else
    it <- lift (_iter_path_collection paths path_transforms offsets styles) ;;
    for_each_element (snd it) (fst it) path_coordinates offset_coordinates
      styles mplobj.

(** The [current_ax_*] properties (lines 24-34): reading [self._current_ax]
    on an object that never had the attribute assigned raises
    [AttributeError]. *)
Definition read_current_ax : M (option (Axes Gridline)) := fun s =>
  match _current_ax s with
  | Some ax => (Ok ax, s)
  | None =>
      (Raise (OtherError "AttributeError: 'Renderer' object has no attribute '_current_ax'"),
       s)
  end.

Definition current_ax_zoomable : M bool :=
  ax <- read_current_ax ;; ret (ax_zoomable ax).

Definition current_ax_has_xgrid : M bool :=
  ax <- read_current_ax ;; ret (ax_has_xgrid ax).

Definition current_ax_has_ygrid : M bool :=
  ax <- read_current_ax ;; ret (ax_has_ygrid ax).

(** The style dictionary of a marker set. Its "markerpath" entry is a pair
    of a vertex array and a command list, not a scalar: it is kept beside
    the other entries ([None] when the key is absent). *)
Record marker_style : Type := {
  ms_entries : props;
  ms_markerpath : option (list point * list string)
}.

(** [for vertex in data: self.draw_path(...)] (lines 247-249). *)
Fixpoint for_each_vertex (data : list point) (vertices : list point)
    (pathcodes : list string) (pathstyle : props) (coordinates : string)
    (mplobj : option MplObject) : M unit :=
  match data with
  | [] => ret tt
  | vertex :: data' =>
      draw_path vertices "points" pathcodes pathstyle (Some vertex) coordinates
        mplobj ;;
      for_each_vertex data' vertices pathcodes pathstyle coordinates mplobj
  end.

Definition draw_markers (data : list point) (coordinates : string)
    (style : marker_style) (mplobj : option MplObject) : M unit :=
  markerpath <- lift (match ms_markerpath style with
                      | Some path => Ok path
                      | None => Raise (KeyError "markerpath")
                      end) ;;
  let '(vertices, pathcodes) := markerpath in
  alpha <- lift (dict_lookup (ms_entries style) "alpha") ;;
  edgecolor <- lift (dict_lookup (ms_entries style) "edgecolor") ;;
  facecolor <- lift (dict_lookup (ms_entries style) "facecolor") ;;
  edgewidth <- lift (dict_lookup (ms_entries style) "edgewidth") ;;
  let pathstyle : props :=
    <["dasharray"%string := PStr "10,0"]>
    (<["edgewidth"%string := edgewidth]>
    (<["facecolor"%string := facecolor]>
    (<["edgecolor"%string := edgecolor]>
    (<["alpha"%string := alpha]> ∅)))) in
  for_each_vertex data vertices pathcodes pathstyle coordinates mplobj.
End Renderer.
Arguments call : clear implicits.
Arguments renderer : clear implicits.
Arguments M : clear implicits.
End Base.

(** ** renderer.py

    The older [Renderer] class: the same predicates and scopes, without the
    property dictionaries, and with abstract [draw_line] and
    [draw_markers]. *)

Module Legacy.
Section Renderer.
Context {Figure Gridline : Type}.

Inductive call : Type :=
| open_figure_call (fig : Figure)
| close_figure_call (fig : Figure)
| open_axes_call (ax : Axes Gridline)
| close_axes_call (ax : Axes Gridline).

Record renderer : Type := {
  _current_fig : option (option Figure);
  _current_ax : option (option (Axes Gridline));
  warned : list string;
  calls : list call
}.

Definition M (A : Type) : Type := renderer -> result A * renderer.

Definition bind {A B} (m : M A) (k : A -> M B) : M B :=
  fun s =>
    match m s with
    | (Ok a, s') => k a s'
    | (Raise e, s') => (Raise e, s')
    end.

Notation "m1 ;; m2" := (bind m1 (fun _ => m2))
  (at level 100, m2 at level 200, only parsing, right associativity).

Definition set_current_fig (v : option Figure) : M unit := fun s =>
  (Ok tt, {| _current_fig := Some v; _current_ax := _current_ax s;
             warned := warned s; calls := calls s |}).
Definition set_current_ax (v : option (Axes Gridline)) : M unit := fun s =>
  (Ok tt, {| _current_fig := _current_fig s; _current_ax := Some v;
             warned := warned s; calls := calls s |}).
Definition warn_if (b : bool) (msg : string) : M unit := fun s =>
  (Ok tt, {| _current_fig := _current_fig s; _current_ax := _current_ax s;
             warned := if b then warned s ++ [msg] else warned s;
             calls := calls s |}).

Variable methods : call -> result unit.

Definition invoke (c : call) : M unit := fun s =>
  (methods c, {| _current_fig := _current_fig s; _current_ax := _current_ax s;
                 warned := warned s; calls := calls s ++ [c] |}).

Definition ax_zoomable (ax : option (Axes Gridline)) : bool :=
  match ax with
  | None => false
  | Some a => get_navigate a
  end.

Definition ax_has_xgrid (ax : option (Axes Gridline)) : bool :=
  match ax with
  | None => false
  | Some a =>
      if _gridOnMajor (xaxis a)
      then match get_gridlines (yaxis a) with [] => false | _ => true end
      else false
  end.

Definition ax_has_ygrid (ax : option (Axes Gridline)) : bool :=
  match ax with
  | None => false
  | Some a =>
      if _gridOnMajor (yaxis a)
      then match get_gridlines (yaxis a) with [] => false | _ => true end
      else false
  end.

Definition draw_figure (fig : Figure) : generator_cm renderer :=
  {| before_yield :=
       (fun s => warn_if (Base.is_set (_current_fig s))
                   "figure embedded in figure: something is wrong" s) ;;
       set_current_fig (Some fig) ;;
       invoke (open_figure_call fig);
     after_yield :=
       invoke (close_figure_call fig) ;;
       set_current_fig None |}.

Definition draw_axes (ax : Axes Gridline) : generator_cm renderer :=
  {| before_yield :=
       (fun s => warn_if (Base.is_set (_current_ax s))
                   "axes embedded in axes: something is wrong" s) ;;
       set_current_ax (Some ax) ;;
       invoke (open_axes_call ax);
     after_yield :=
       invoke (close_axes_call ax) ;;
       set_current_ax None |}.

Definition draw_line (data : list point) (coordinates : string) (style : props)
  : M unit :=
  fun s => (Raise (NotImplementedError ""), s).

Definition draw_markers (data : list point) (coordinates : string) (style : props)
  : M unit :=
  fun s => (Raise (NotImplementedError ""), s).
End Renderer.
Arguments call : clear implicits.
Arguments renderer : clear implicits.
Arguments M : clear implicits.
End Legacy.

(** * utils.py: the style and axis records *)

Module Styles.

(** The truth value of a Python value ([if v:], [bool(v)]). *)
Definition py_truth (v : pyval) : bool :=
  match v with
  | PNone => false
  | PInt z => negb (z =? 0)
  | PFloat f => negb (PrimFloat.is_zero f)
  | PStr s => negb (String.eqb s "")
  | PTuple l | PList l => match l with [] => false | _ => true end
  end.

(** matplotlib objects, as the style functions see them: the instance
    dictionary and linestyle that [get_dasharray] reads, and what each getter
    returns. *)
Record Patch : Type := {
  path_obj : Utils.mplobj;
  path_get_alpha : pyval;
  path_get_edgecolor : pyval;
  path_get_facecolor : pyval;
  path_get_linewidth : pyval;
  path_get_zorder : pyval
}.

Record Line2D : Type := {
  line_obj : Utils.mplobj;
  line_get_alpha : pyval;
  line_get_color : pyval;
  line_get_linewidth : pyval;
  line_get_markerfacecolor : pyval;
  line_get_markeredgecolor : pyval;
  line_get_markeredgewidth : pyval;
  line_get_marker : pyval;
  line_get_markersize : pyval;
  line_get_zorder : pyval
}.

Record Text : Type := {
  text_get_alpha : pyval;
  text_get_size : pyval;
  text_get_color : pyval;
  text_get_horizontalalignment : pyval;
  text_get_verticalalignment : pyval;
  text_get_rotation : pyval;
  text_get_zorder : pyval
}.

(** [style['alpha'] = obj.get_alpha()], then 1 when that is [None]. *)
Definition alpha_or_one (alpha : pyval) : pyval :=
  match alpha with
  | PNone => PInt 1
  | _ => alpha
  end.

Section StyleGetters.
Variable to_rgb : pyval -> result (float * float * float).
Variable py_str : pyval -> string.

(** Each getter returns the pair of what the call returns or raises and the
    warnings it has issued, as [get_dasharray] does. *)
Definition get_path_style (path : Patch) : result props * list string :=
  let alpha := alpha_or_one (path_get_alpha path) in
  match Utils.color_to_hex to_rgb (path_get_edgecolor path) with
  | Raise e => (Raise e, [])
  | Ok edgecolor =>
  match Utils.color_to_hex to_rgb (path_get_facecolor path) with
  | Raise e => (Raise e, [])
  | Ok facecolor =>
  let edgewidth := path_get_linewidth path in
  match Utils.get_dasharray py_str (path_obj path) None with
  | (Raise e, w) => (Raise e, w)
  | (Ok dasharray, w) =>
      (Ok (<["zorder"%string := path_get_zorder path]>
          (<["dasharray"%string := PStr dasharray]>
          (<["edgewidth"%string := edgewidth]>
          (<["facecolor"%string := PStr facecolor]>
          (<["edgecolor"%string := PStr edgecolor]>
          (<["alpha"%string := alpha]> ∅)))))), w)
  end end end.

Definition get_line_style (line : Line2D) : result props * list string :=
  let alpha := alpha_or_one (line_get_alpha line) in
  match Utils.color_to_hex to_rgb (line_get_color line) with
  | Raise e => (Raise e, [])
  | Ok color =>
  let linewidth := line_get_linewidth line in
  match Utils.get_dasharray py_str (line_obj line) None with
  | (Raise e, w) => (Raise e, w)
  | (Ok dasharray, w) =>
      (Ok (<["zorder"%string := line_get_zorder line]>
          (<["dasharray"%string := PStr dasharray]>
          (<["linewidth"%string := linewidth]>
          (<["color"%string := PStr color]>
          (<["alpha"%string := alpha]> ∅))))), w)
  end end.

Definition get_text_style (text : Text) : result props :=
  let alpha := alpha_or_one (text_get_alpha text) in
  let fontsize := text_get_size text in
  let? color := Utils.color_to_hex to_rgb (text_get_color text) in
  Ok (<["zorder"%string := text_get_zorder text]>
     (<["rotation"%string := text_get_rotation text]>
     (<["valign"%string := text_get_verticalalignment text]>
     (<["halign"%string := text_get_horizontalalignment text]>
     (<["color"%string := PStr color]>
     (<["fontsize"%string := fontsize]>
     (<["alpha"%string := alpha]> ∅))))))).

(** [matplotlib.markers.MarkerStyle(marker)], its [get_path()] and
    [get_transform()], and [t + Affine2D().scale(size, -size)]. *)
Context {MplPath Transform MarkerStyleObj : Type}.
Variable MarkerStyle : pyval -> result MarkerStyleObj.
Variable get_path : MarkerStyleObj -> MplPath.
Variable get_transform : MarkerStyleObj -> Transform.
Variable then_scale : Transform -> pyval -> Transform.
Variable transformed : MplPath -> Transform -> MplPath.
Variable iter_segments : MplPath -> bool -> list (list float * Z).

Definition get_marker_style (line : Line2D) : result Base.marker_style :=
  let alpha := alpha_or_one (line_get_alpha line) in
  let? facecolor := Utils.color_to_hex to_rgb (line_get_markerfacecolor line) in
  let? edgecolor := Utils.color_to_hex to_rgb (line_get_markeredgecolor line) in
  let edgewidth := line_get_markeredgewidth line in
  let marker := line_get_marker line in
  let? markerstyle := MarkerStyle (line_get_marker line) in
  let markersize := line_get_markersize line in
  let markertransform := then_scale (get_transform markerstyle) markersize in
  let? markerpath :=
    Utils.SVG_path transformed iter_segments (get_path markerstyle)
      (Some markertransform) false in
  Ok {| Base.ms_entries :=
          <["zorder"%string := line_get_zorder line]>
          (<["marker"%string := marker]>
          (<["edgewidth"%string := edgewidth]>
          (<["edgecolor"%string := PStr edgecolor]>
          (<["facecolor"%string := PStr facecolor]>
          (<["alpha"%string := alpha]> ∅)))));
        Base.ms_markerpath := Some markerpath |}.
End StyleGetters.

(** ** [get_axis_properties] *)

Inductive axis_class : Type := XAxis | YAxis | NotAnAxis.

(** A [matplotlib.axis.Axis], as [get_axis_properties] sees it: its class,
    [_major_tick_kw], whether the major locator is a [FixedLocator] and the
    tick locations it gives when called, whether the major formatter is a
    [NullFormatter], the visibility of each tick label, and [str(axis)]. *)
Record MplAxis : Type := {
  axis_isinstance : axis_class;
  _major_tick_kw : props;
  locator_is_fixed : bool;
  locator_call : list pyval;
  formatter_is_null : bool;
  ticklabels_visible : list bool;
  axis_str : string
}.

Definition get_axis_properties (axis : MplAxis) : result props :=
  let label1On :=
    match _major_tick_kw axis !! "label1On"%string with
    | Some v => py_truth v
    | None => true
    end in
  let? position :=
    match axis_isinstance axis with
    | XAxis => Ok (if label1On then "bottom" else "top")%string
    | YAxis => Ok (if label1On then "left" else "right")%string
    | NotAnAxis => Raise (ValueError (axis_str axis +:+ " should be an Axis instance"))
    end in
  let nticks := PInt (Z.of_nat (length (locator_call axis))) in
  let tickvalues :=
    if locator_is_fixed axis then PList (locator_call axis) else PNone in
  let tickformat :=
    if formatter_is_null axis then PStr ""
    else if negb (existsb (fun visible => visible) (ticklabels_visible axis))
         then PStr ""
         else PNone in
  Ok (<["tickformat"%string := tickformat]>
     (<["tickvalues"%string := tickvalues]>
     (<["nticks"%string := nticks]>
     (<["position"%string := PStr position]> ∅)))).

End Styles.

(** * What the code relies on from matplotlib *)

(** ** Hex colour strings, as [colorConverter.to_rgb] reads them *)

Definition hex_value (c : ascii) : option Z :=
  let n := Z.of_N (N_of_ascii c) in
  if (48 <=? n) && (n <=? 57) then Some (n - 48)
  else if (65 <=? n) && (n <=? 70) then Some (n - 55)
  else if (97 <=? n) && (n <=? 102) then Some (n - 87)
  else None.

Definition hex_pair (a b : ascii) : option Z :=
  match hex_value a, hex_value b with
  | Some x, Some y => Some (16 * x + y)
  | _, _ => None
  end.

(** The three channels of a string ["#RRGGBB"] (either case of the digits). *)
Definition parse_hex_color (s : string) : option (Z * Z * Z) :=
  match s with
  | String "#" (String r1 (String r2 (String g1 (String g2
      (String b1 (String b2 EmptyString)))))) =>
      match hex_pair r1 r2, hex_pair g1 g2, hex_pair b1 b2 with
      | Some r, Some g, Some b => Some (r, g, b)
      | _, _, _ => None
      end
  | _ => None
  end.

(** [int(n, 16) / 255.0] *)
Definition channel_of_byte (n : Z) : float :=
  (py_float_of_Z n / 255)%float.

(** On a hex colour string, [to_rgb] returns each channel divided by 255. *)
Definition to_rgb_reads_hex (to_rgb : pyval -> result (float * float * float)) : Prop :=
  forall s r g b,
    parse_hex_color s = Some (r, g, b) ->
    to_rgb (PStr s) = Ok (channel_of_byte r, channel_of_byte g, channel_of_byte b).

(** A converter that knows hex colour strings only. *)
Definition hex_only_to_rgb (v : pyval) : result (float * float * float) :=
  match v with
  | PStr s =>
      match parse_hex_color s with
      | Some (r, g, b) =>
          Ok (channel_of_byte r, channel_of_byte g, channel_of_byte b)
      | None => Raise (ValueError "to_rgb: Invalid rgb arg")
      end
  | _ => Raise (ValueError "to_rgb: Invalid rgb arg")
  end.

(** ** Path segments, as [Path.iter_segments] yields them *)

(** A segment carries as many coordinates as its code needs: one point for
    a move or a line, two for a quadratic curve, three for a cubic curve.
    (What comes with a close code is dropped by the codec.) *)
Definition segment_ok (seg : list float * Z) : bool :=
  let '(v, c) := seg in
  if c =? Utils.Path.CLOSEPOLY then true
  else if (c =? Utils.Path.MOVETO) || (c =? Utils.Path.LINETO)
       then (length v =? 2)%nat
  else if c =? Utils.Path.CURVE3 then (length v =? 4)%nat
  else if c =? Utils.Path.CURVE4 then (length v =? 6)%nat
  else false.

(** The number of vertices an SVG command of the codec consumes. *)
Definition consumed (code : string) : nat :=
  if String.eqb code "M" then 1
  else if String.eqb code "L" then 1
  else if String.eqb code "S" then 2
  else if String.eqb code "C" then 3
  else 0.

Definition consumed_total (codes : list string) : nat :=
  list_sum (map consumed codes).

Definition is_close (code : string) : bool := String.eqb code "Z".

(** A path object that is the list of its segments; transforms are not
    applied and nothing is simplified. *)
Definition segments_path : Type := list (list float * Z).
Definition segments_transformed (p : segments_path) (t : unit) : segments_path := p.
Definition segments_iter (p : segments_path) (simplify : bool) : list (list float * Z) := p.

(** [str] on the integers; other values are not printed here. *)
Definition str_of_int (v : pyval) : string :=
  match v with
  | PInt z => pretty z
  | PStr s => s
  | PNone => "None"
  | _ => "?"
  end.

(** * Vocabulary of the statements *)

(** ** The codec *)

(** The path [SVG_path] encodes: the argument, transformed when a transform
    is given. *)
Definition path_to_encode {MplPath Transform : Type}
    (transformed : MplPath -> Transform -> MplPath)
    (path : MplPath) (transform : option Transform) : MplPath :=
  match transform with
  | Some t => transformed path t
  | None => path
  end.

(** The commands other than ClosePath. *)
Definition open_codes (codes : list string) : list string :=
  filter (fun c => negb (is_close c) = true) codes.

(** ** Colours *)

Definition hex_string (r g b : Z) : string :=
  "#" +:+ Utils.format_02X r +:+ Utils.format_02X g +:+ Utils.format_02X b.

Definition eq_result_Z (r : result Z) (n : Z) : bool :=
  match r with
  | Ok m => m =? n
  | Raise _ => false
  end.

(** [format_02X n] is two digits that read back as [n]. *)
Definition reads_back (n : Z) : bool :=
  match Utils.format_02X n with
  | String a (String b EmptyString) =>
      match hex_pair a b with
      | Some m => m =? n
      | None => false
      end
  | _ => false
  end.

(** ** Cycles and the path collection *)

(** The element of a sequence that a cycle over it gives at step [i]. *)
Definition cyclic {A} (l : list A) (i : nat) : option A :=
  l !! (i mod length l)%nat.

(** A colour sequence, after [colors_or_none]. *)
Definition sequence_or_none (colors : list pyval) : list pyval :=
  if (np_size (PList colors) =? 0)%nat then [PStr "none"] else colors.

(** The coordinates code after the substitution of line 211. *)
Definition normalized_coordinates (path_coordinates : string) : string :=
  if String.eqb path_coordinates "figure" then "points"%string else path_coordinates.

(** The style dictionary of lines 213-218. *)
Definition collection_style (edgecolor : string) (lw : pyval) (facecolor : string)
    (alpha zorder : pyval) : props :=
  <["edgecolor"%string := PStr edgecolor]>
  (<["facecolor"%string := PStr facecolor]>
  (<["edgewidth"%string := lw]>
  (<["dasharray"%string := PStr "10,0"]>
  (<["alpha"%string := alpha]>
  (<["zorder"%string := zorder]> ∅))))).

(** A cycle over [l] that has given [k] elements. *)
Definition cycle_at {A} (l : list A) (k : nat) (c : cycle A) : Prop :=
  saved c = l
  /\ exists j, (j <= length l)%nat /\ pending c = drop j l
               /\ (j mod length l = k mod length l)%nat.

(** The style dictionary [draw_line] hands to [draw_path]. *)
Definition line_pathstyle (color linewidth : pyval) (style : props) : props :=
  <["edgewidth"%string := linewidth]>
    (delete "linewidth"%string
       (<["edgecolor"%string := color]>
          (delete "color"%string
             (<["facecolor"%string := PStr "none"]> style)))).

Definition with_axis_gridlines {Gridline} (lines : list Gridline) (axis : Axis Gridline)
  : Axis Gridline :=
  {| _gridOnMajor := _gridOnMajor axis; get_gridlines := lines |}.

Definition with_xaxis {Gridline} (axis : Axis Gridline) (a : Axes Gridline) : Axes Gridline :=
  {| get_navigate := get_navigate a; xaxis := axis; yaxis := yaxis a |}.

Section RendererVocabulary.
Import Base.
Context {Figure Gridline MplObject : Type}.
Variable to_rgb : pyval -> result (float * float * float).
Variable affine_transform : matrix -> list point -> list point.
Variable methods : call Figure Gridline MplObject -> result unit.

Local Abbreviation renderer := (Base.renderer Figure Gridline MplObject).

(** The renderer after one more call, and after the calls [cs], have been
    received. *)
Definition received (c : call Figure Gridline MplObject) (s : renderer) : renderer :=
  snd (record_call c s).

Definition received_all (cs : list (call Figure Gridline MplObject)) (s : renderer)
  : renderer :=
  {| _current_fig := _current_fig s; _fig_properties := _fig_properties s;
     _current_ax := _current_ax s; _ax_properties := _ax_properties s;
     warned := warned s; calls := calls s ++ cs |}.

(** The renderer with the figure (the axes) attributes reset. *)
Definition with_fig_closed (s : renderer) : renderer :=
  {| _current_fig := Some None; _fig_properties := Some ∅;
     _current_ax := _current_ax s; _ax_properties := _ax_properties s;
     warned := warned s; calls := calls s |}.

Definition with_ax_closed (s : renderer) : renderer :=
  {| _current_fig := _current_fig s; _fig_properties := _fig_properties s;
     _current_ax := Some None; _ax_properties := Some ∅;
     warned := warned s; calls := calls s |}.

(** The renderer when the body of [with draw_figure(fig, properties)]
    (of [with draw_axes(ax, properties)]) starts. *)
Definition figure_entered (fig : Figure) (properties : props) (s : renderer) : renderer :=
  snd (before_yield (draw_figure methods fig properties) s).

Definition axes_entered (ax : Axes Gridline) (properties : props) (s : renderer) : renderer :=
  snd (before_yield (draw_axes methods ax properties) s).

(** [c] is the [draw_path] call of step [i] of the collection: every
    sequence gives its element [i], cyclically. *)
Definition selected
    (paths : list (list point * list string)) (transforms : list matrix)
    (offsets : list point) (ec lw fc : list pyval)
    (offset_coordinates : string) (mplobj : option MplObject)
    (alpha zorder : pyval) (pc : string) (i : nat)
    (c : call Figure Gridline MplObject) : Prop :=
  exists vertices pathcodes path_transform offset e w f eh fh,
    cyclic paths i = Some (vertices, pathcodes)
    /\ cyclic transforms i = Some path_transform
    /\ cyclic offsets i = Some offset
    /\ cyclic ec i = Some e
    /\ cyclic lw i = Some w
    /\ cyclic fc i = Some f
    /\ Utils.color_to_hex to_rgb e = Ok eh
    /\ Utils.color_to_hex to_rgb f = Ok fh
    /\ c = draw_path_call (affine_transform path_transform vertices)
             (normalized_coordinates pc) pathcodes
             (collection_style eh w fh alpha zorder)
             (Some offset) offset_coordinates mplobj.

(** The six cycles of the [izip] have each given [k] elements. *)
Definition izip_at
    (paths : list (list point * list string)) (transforms : list matrix)
    (offsets : list point) (ec lw fc : list pyval) (k : nat) (z : izip6) : Prop :=
  cycle_at paths k (z_paths z)
  /\ cycle_at transforms k (z_transforms z)
  /\ cycle_at offsets k (z_offsets z)
  /\ cycle_at ec k (z_edgecolor z)
  /\ cycle_at lw k (z_linewidth z)
  /\ cycle_at fc k (z_facecolor z).
End RendererVocabulary.

(** ** Concrete inputs *)

Definition dashed_with_sequence : Utils.mplobj :=
  {| Utils.obj_dict := <["_dashSeq"%string := PList [PInt 5; PInt 2]]> ∅;
     Utils.get_linestyle := PStr "dashed" |}.

Definition unknown_linestyle : Utils.mplobj :=
  {| Utils.obj_dict := ∅; Utils.get_linestyle := PStr "foo" |}.

Definition closed_triangle : segments_path :=
  [ ([0; 0]%float, Utils.Path.MOVETO); ([1; 0]%float, Utils.Path.LINETO);
    ([0; 1]%float, Utils.Path.LINETO); ([0; 0]%float, Utils.Path.CLOSEPOLY) ].

Definition an_axes : Axes nat :=
  {| get_navigate := true;
     xaxis := {| _gridOnMajor := true; get_gridlines := [1%nat] |};
     yaxis := {| _gridOnMajor := false; get_gridlines := [] |} |}.

Definition fresh_renderer : Base.renderer nat nat nat :=
  {| Base._current_fig := None; Base._fig_properties := None;
     Base._current_ax := None; Base._ax_properties := None;
     Base.warned := []; Base.calls := [] |}.

Definition failing_body (s : Base.renderer nat nat nat)
  : result unit * Base.renderer nat nat nat :=
  (Raise (ValueError "nested drawing failed"), s).

Definition returning_body (s : Base.renderer nat nat nat)
  : result unit * Base.renderer nat nat nat :=
  (Ok tt, s).

(** A concrete renderer all of whose methods return. *)
Definition all_return (c : Base.call nat nat nat) : result unit := Ok tt.

(** A transform application that leaves the vertices alone. *)
Definition no_transform (m : matrix) (vertices : list point) : list point := vertices.

Definition three_points : list point := [(0, 0); (1, 1); (2, 0)]%float.

Definition blue_line_style : props :=
  <["color"%string := PStr "#0000FF"]> (<["linewidth"%string := PInt 2]> ∅).

Definition line_style_with_facecolor : props :=
  <["facecolor"%string := PStr "#FF0000"]> blue_line_style.

Definition three_paths : list (list point * list string) :=
  [ ([(0, 0)]%float, ["M"]%string);
    ([(1, 1)]%float, ["M"]%string);
    ([(2, 2)]%float, ["M"]%string) ].

Definition five_offsets : list point :=
  [(10, 0); (11, 0); (12, 0); (13, 0); (14, 0)]%float.

Definition collection_styles : props :=
  <["edgecolor"%string := PList [PStr "#000000"; PStr "#FFFFFF"]]>
  (<["facecolor"%string := PList []]>
  (<["linewidth"%string := PList [PInt 1; PInt 2]]>
  (<["alpha"%string := PInt 1]>
  (<["zorder"%string := PInt 3]> ∅)))).

(** * Vocabulary of the further statements *)

(** The value that the groups of a many-to-one table give to the string key
    [k]: the value of the last group that lists it. *)
Definition group_value {V} (k : string) (input_dict : list (list pyval * V)) : option V :=
  fold_left
    (fun acc '(keys, val) =>
       if existsb (fun key => py_eqb key (PStr k)) keys then Some val else acc)
    input_dict None.

(** The five dash patterns of the table. *)
Definition dash_patterns : list string :=
  ["10,0"; "6,6"; "2,2"; "4,4,2,4"; "none"]%string.

(** The object has no dash sequence of its own. *)
Definition no_dash_sequence (obj : Utils.mplobj) : Prop :=
  Utils.obj_dict obj !! "_dashSeq"%string = None
  \/ Utils.obj_dict obj !! "_dashSeq"%string = Some PNone.

(** The SVG letters of the codec. *)
Definition svg_letters : list string := ["L"; "M"; "S"; "C"; "Z"]%string.

(** The coordinates the codec keeps: all but those of the close segments. *)
Definition kept_coordinates (segments : list (list float * Z)) : nat :=
  list_sum (map (fun seg : list float * Z =>
                   if snd seg =? Utils.Path.CLOSEPOLY then 0%nat else length (fst seg))
                segments).

(** The alpha entry of a style is the object's alpha, or 1 when the object
    has none; it is never [None]. *)
Definition alpha_entry (style : props) (alpha : pyval) : Prop :=
  exists a, style !! "alpha"%string = Some a
            /\ a <> PNone
            /\ (alpha = PNone -> a = PInt 1)
            /\ (alpha <> PNone -> a = alpha).

(** The style dictionary [draw_markers] hands to [draw_path]. *)
Definition marker_pathstyle (alpha edgecolor facecolor edgewidth : pyval) : props :=
  <["dasharray"%string := PStr "10,0"]>
  (<["edgewidth"%string := edgewidth]>
  (<["facecolor"%string := facecolor]>
  (<["edgecolor"%string := edgecolor]>
  (<["alpha"%string := alpha]> ∅)))).

(** The keys of a marker style that [draw_markers] reads, and the sequence
    entries of a collection style that the iterator reads. *)
Definition marker_keys : list string :=
  ["alpha"; "edgecolor"; "facecolor"; "edgewidth"]%string.

Definition collection_keys : list string :=
  ["edgecolor"; "facecolor"; "linewidth"]%string.

Definition axes_warning : string := "axes embedded in axes: something is wrong".

(** The calls [draw_markers] makes: the marker glyph once per data point. *)
Definition marker_calls {Figure Gridline MplObject : Type}
    (data vertices : list point) (pathcodes : list string) (pathstyle : props)
    (coordinates : string) (mplobj : option MplObject)
  : list (Base.call Figure Gridline MplObject) :=
  map (fun vertex =>
         Base.draw_path_call vertices "points" pathcodes pathstyle (Some vertex)
           coordinates mplobj) data.

(** The renderer of [renderer.py] when the body of an axes scope inside a
    figure scope starts. *)
Definition legacy_entered {Figure Gridline : Type}
    (methods : Legacy.call Figure Gridline -> result unit)
    (fig : Figure) (ax : Axes Gridline) (s : Legacy.renderer Figure Gridline)
  : Legacy.renderer Figure Gridline :=
  snd (before_yield (Legacy.draw_axes methods ax)
         (snd (before_yield (Legacy.draw_figure methods fig) s))).

(** The named dash styles and the pattern of each. *)
Definition named_dash_styles : list (string * string) :=
  [ ("solid", "10,0"); ("dashed", "6,6"); ("dotted", "2,2");
    ("dashdot", "4,4,2,4"); ("", "none"); (" ", "none");
    ("None", "none"); ("none", "none") ]%string.

(** ** Further concrete inputs *)

Definition two_groups : list (list pyval * string) :=
  [ ([PStr "solid"; PStr "-"], "10,0"); ([PStr "dashed"; PStr "--"], "6,6") ]%string.

Definition named_dashed_object : Utils.mplobj :=
  {| Utils.obj_dict := ∅; Utils.get_linestyle := PStr "dashed" |}.

Definition dashed_object : Utils.mplobj :=
  {| Utils.obj_dict := ∅; Utils.get_linestyle := PStr "--" |}.

Definition collection_object : Utils.mplobj :=
  {| Utils.obj_dict := ∅;
     Utils.get_linestyle := PList [PStr "solid"; PStr "dotted"] |}.

Definition one_move : segments_path := [ ([0; 0]%float, Utils.Path.MOVETO) ].
Definition one_line : segments_path := [ ([1; 1]%float, Utils.Path.LINETO) ].
Definition move_then_stop : segments_path :=
  [ ([0; 0]%float, Utils.Path.MOVETO); ([0; 0]%float, Utils.Path.STOP) ].

Definition a_text : Styles.Text :=
  {| Styles.text_get_alpha := PNone;
     Styles.text_get_size := PInt 12;
     Styles.text_get_color := PStr "#1f77b4";
     Styles.text_get_horizontalalignment := PStr "left";
     Styles.text_get_verticalalignment := PStr "baseline";
     Styles.text_get_rotation := PInt 0;
     Styles.text_get_zorder := PInt 3 |}.

Definition line_with (obj : Utils.mplobj) : Styles.Line2D :=
  {| Styles.line_obj := obj;
     Styles.line_get_alpha := PNone;
     Styles.line_get_color := PStr "#1f77b4";
     Styles.line_get_linewidth := PInt 2;
     Styles.line_get_markerfacecolor := PStr "#1f77b4";
     Styles.line_get_markeredgecolor := PStr "#000000";
     Styles.line_get_markeredgewidth := PInt 1;
     Styles.line_get_marker := PStr "o";
     Styles.line_get_markersize := PInt 6;
     Styles.line_get_zorder := PInt 2 |}.

Definition an_xaxis : Styles.MplAxis :=
  {| Styles.axis_isinstance := Styles.XAxis;
     Styles._major_tick_kw := ∅;
     Styles.locator_is_fixed := true;
     Styles.locator_call := [PInt 0; PInt 1; PInt 2];
     Styles.formatter_is_null := false;
     Styles.ticklabels_visible := [false; false; false];
     Styles.axis_str := "XAxis(80,52)" |}.

Definition a_marker_style : Base.marker_style :=
  {| Base.ms_entries :=
       <["alpha"%string := PInt 1]>
       (<["edgecolor"%string := PStr "#000000"]>
       (<["facecolor"%string := PStr "#1F77B4"]>
       (<["edgewidth"%string := PInt 1]>
       (<["zorder"%string := PInt 2]> ∅))));
     Base.ms_markerpath := Some ([(0, 0); (1, 0)]%float, ["M"; "L"]%string) |}.

Definition marker_style_without_alpha : Base.marker_style :=
  {| Base.ms_entries := <["edgecolor"%string := PStr "#000000"]> ∅;
     Base.ms_markerpath := Some ([(0, 0); (1, 0)]%float, ["M"; "L"]%string) |}.

Definition two_points : list point := [(3, 4); (5, 6)]%float.

Definition styles_without_linewidth : props :=
  <["edgecolor"%string := PList []]> (<["facecolor"%string := PList []]> ∅).

(** A marker "style object" that is the path of the marker itself. *)
Definition marker_segments (marker : pyval) : result segments_path :=
  Ok [ ([0; 0]%float, Utils.Path.MOVETO); ([1; 0]%float, Utils.Path.LINETO) ].

Definition fresh_legacy_renderer : Legacy.renderer nat nat :=
  {| Legacy._current_fig := None; Legacy._current_ax := None;
     Legacy.warned := []; Legacy.calls := [] |}.

(** * Dash patterns *)

Section DashFacts.
Import Utils.

Lemma get_dasharray_explicit (py_str : pyval -> string) (obj : mplobj) (i : option Z)
    (seq : pyval) :
  obj_dict obj !! "_dashSeq"%string = Some seq ->
  seq <> PNone ->
  get_dasharray py_str obj i
  = (rbind (py_iter seq) (fun items => Ok (join "," (map py_str items))), []).
Proof.
  intros Hseq Hnone. unfold get_dasharray. rewrite Hseq.
  destruct seq; try reflexivity. contradiction.
Qed.

(** Without a dash sequence the linestyle decides: a known one gives its
    pattern; an unknown one reaches [warnings.warn], and the name [warnings]
    is not bound in [utils.py]. *)
Lemma get_dasharray_named (py_str : pyval -> string) (obj : mplobj) (ls : pyval) :
  (obj_dict obj !! "_dashSeq"%string = None
   \/ obj_dict obj !! "_dashSeq"%string = Some PNone) ->
  get_linestyle obj = ls ->
  hashable ls = true ->
  get_dasharray py_str obj None
  = match dict_get ls LINESTYLES with
    | Some dasharray => (Ok dasharray, [])
    | None => (Raise (NameError "warnings"), [])
    end.
Proof.
  intros Hseq Hls Hh. unfold get_dasharray.
  assert (Hd : dict_get_default LINESTYLES ls = Ok (dict_get ls LINESTYLES)).
  { unfold dict_get_default. now rewrite Hh. }
  destruct Hseq as [-> | ->]; rewrite Hls, Hd;
    destruct (dict_get ls LINESTYLES); reflexivity.
Qed.

(** C6: the named-dash table maps solid to "10,0", dashed to "6,6", dotted
    to "2,2", dashdot to "4,4,2,4" and each of "", " ", "None", "none" to
    "none"; for an object without a dash sequence of its own whose linestyle
    is one of these names, [get_dasharray] returns the pattern of that name
    and issues no warning; and for an object whose [_dashSeq] is a sequence
    other than [None], [get_dasharray] returns the elements joined with
    commas, whatever the object's linestyle is. *)
Theorem dash_pattern_mapping (py_str : pyval -> string) :
  (dict_get (PStr "solid") LINESTYLES = Some "10,0"%string
   /\ dict_get (PStr "dashed") LINESTYLES = Some "6,6"%string
   /\ dict_get (PStr "dotted") LINESTYLES = Some "2,2"%string
   /\ dict_get (PStr "dashdot") LINESTYLES = Some "4,4,2,4"%string
   /\ dict_get (PStr "") LINESTYLES = Some "none"%string
   /\ dict_get (PStr " ") LINESTYLES = Some "none"%string
   /\ dict_get (PStr "None") LINESTYLES = Some "none"%string
   /\ dict_get (PStr "none") LINESTYLES = Some "none"%string)
  /\ (forall (obj : mplobj) (name pattern : string),
        no_dash_sequence obj ->
        get_linestyle obj = PStr name ->
        In (name, pattern) named_dash_styles ->
        get_dasharray py_str obj None = (Ok pattern, []))
  /\ (forall (obj : mplobj) (i : option Z) (seq : pyval) (items : list pyval),
        obj_dict obj !! "_dashSeq"%string = Some seq ->
        seq <> PNone ->
        py_iter seq = Ok items ->
        get_dasharray py_str obj i = (Ok (join "," (map py_str items)), [])).
Proof.
  split; [|split].
  - repeat split; vm_compute; reflexivity.
  - intros obj name pattern Hseq Hls Hin.
    rewrite (get_dasharray_named py_str obj (PStr name) Hseq Hls eq_refl).
    unfold named_dash_styles in Hin.
    repeat (destruct Hin as [[= <- <-] | Hin]; [reflexivity|]).
    destruct Hin.
  - intros obj i seq items Hseq Hnone Hit.
    rewrite (get_dasharray_explicit py_str obj i seq Hseq Hnone), Hit.
    reflexivity.
Qed.

Lemma dash_pattern_mapping_witness :
  get_dasharray str_of_int named_dashed_object None = (Ok "6,6"%string, [])
  /\ get_dasharray str_of_int dashed_with_sequence None = (Ok "5,2"%string, []).
Proof.
  split.
  - apply (proj1 (proj2 (dash_pattern_mapping str_of_int)) named_dashed_object
             "dashed"%string "6,6"%string).
    + now left.
    + reflexivity.
    + right. now left.
  - apply (proj2 (proj2 (dash_pattern_mapping str_of_int)) dashed_with_sequence None
             (PList [PInt 5; PInt 2]) [PInt 5; PInt 2]).
    + reflexivity.
    + discriminate.
    + reflexivity.
Defined.

(** C2: for the object with linestyle "foo" and no dash sequence,
    [get_dasharray] raises [NameError] on the name [warnings]: no warning is
    issued and "10,0" is not returned. *)
Theorem unknown_dash_style_raises (py_str : pyval -> string) :
  get_dasharray py_str unknown_linestyle None = (Raise (NameError "warnings"), []).
Proof. reflexivity. Qed.

End DashFacts.

(** * The path codec *)

Section CodecFacts.
Import Utils.
Context {MplPath Transform : Type}.
Variable transformed : MplPath -> Transform -> MplPath.
Variable iter_segments : MplPath -> bool -> list (list float * Z).

(** C9: when the path to encode has no segments, [SVG_path] returns the
    empty vertex array and the empty command list. *)
Theorem SVG_path_empty (path : MplPath) (transform : option Transform) (simplify : bool) :
  iter_segments (path_to_encode transformed path transform) simplify = [] ->
  SVG_path transformed iter_segments path transform simplify = Ok ([], []).
Proof.
  unfold SVG_path, path_to_encode. intros ->. reflexivity.
Qed.

Lemma reshape_n2_pairs (n : nat) :
  forall flat, length flat = (2 * n)%nat ->
  exists vs, reshape_n2 flat = Ok vs /\ length vs = n.
Proof.
  induction n as [|n IH]; intros flat Hlen.
  - destruct flat; [|discriminate]. exists []. split; reflexivity.
  - destruct flat as [|x [|y rest]]; simpl in Hlen; try lia.
    destruct (IH rest) as (vs & Hvs & Hn); [lia|].
    exists ((x, y) :: vs). simpl. rewrite Hvs. simpl. split; [reflexivity|lia].
Qed.

Lemma segment_letter (v : list float) (c : Z) :
  segment_ok (v, c) = true ->
  exists letter,
    PATH_DICT !! c = Some letter
    /\ length (if negb (c =? Path.CLOSEPOLY) then v else []) = (2 * consumed letter)%nat
    /\ (if is_close letter then consumed letter = 0%nat else (1 <= consumed letter)%nat).
Proof.
  unfold segment_ok.
  destruct (Z.eqb_spec c Path.CLOSEPOLY) as [-> | Hclose].
  { intros _. exists "Z"%string. repeat split. }
  destruct (Z.eqb_spec c Path.MOVETO) as [-> | Hmove].
  { intros H%Nat.eqb_eq. exists "M"%string.
    split; [reflexivity|]. split; [exact H | vm_compute; lia]. }
  destruct (Z.eqb_spec c Path.LINETO) as [-> | Hline].
  { intros H%Nat.eqb_eq. exists "L"%string.
    split; [reflexivity|]. split; [exact H | vm_compute; lia]. }
  cbn [orb negb].
  destruct (Z.eqb_spec c Path.CURVE3) as [-> | Hc3].
  { intros H%Nat.eqb_eq. exists "S"%string.
    split; [reflexivity|]. split; [exact H | vm_compute; lia]. }
  destruct (Z.eqb_spec c Path.CURVE4) as [-> | Hc4].
  { intros H%Nat.eqb_eq. exists "C"%string.
    split; [reflexivity|]. split; [exact H | vm_compute; lia]. }
  discriminate.
Qed.

Lemma vc_tuples_of_ok (segments : list (list float * Z)) :
  forallb segment_ok segments = true ->
  exists vc,
    vc_tuples_of segments = Ok vc
    /\ length vc = length segments
    /\ length (concat (map fst vc)) = (2 * consumed_total (map snd vc))%nat
    /\ (length (open_codes (map snd vc)) <= consumed_total (map snd vc))%nat.
Proof.
  induction segments as [|[v c] segments IH]; intros Hok.
  - exists []. repeat split; simpl; lia.
  - simpl in Hok. apply andb_prop in Hok as [Hseg Hrest].
    destruct (IH Hrest) as (vc & Hvc & Hlen & Hsum & Hopen).
    destruct (segment_letter v c Hseg) as (letter & Hletter & Hv & Hcons).
    exists ((if negb (c =? Path.CLOSEPOLY) then v else [], letter) :: vc).
    split; [|split; [|split]].
    + simpl. rewrite Hletter, Hvc. reflexivity.
    + simpl. lia.
    + cbn [map fst concat snd]. rewrite length_app, Hv, Hsum.
      unfold consumed_total. simpl. lia.
    + cbn [map snd]. unfold open_codes, consumed_total in *.
      rewrite filter_cons. cbn [map list_sum].
      destruct (is_close letter); simpl.
      * destruct (decide (false = true)); [discriminate|]. lia.
      * destruct (decide (true = true)); [|contradiction]. simpl. lia.
Qed.

(** C7 (amended): when every segment carries the coordinates its code needs,
    [SVG_path] returns one command per segment, the vertices its commands
    consume (1 for M and L, 2 for S, 3 for C, 0 for Z) are as many as the
    returned vertex array holds, and the commands other than Z are at most as
    many as the vertices. *)
Theorem SVG_path_vertex_count (path : MplPath) (transform : option Transform)
    (simplify : bool) :
  forallb segment_ok
    (iter_segments (path_to_encode transformed path transform) simplify) = true ->
  exists vertices codes,
    SVG_path transformed iter_segments path transform simplify = Ok (vertices, codes)
    /\ length codes
       = length (iter_segments (path_to_encode transformed path transform) simplify)
    /\ consumed_total codes = length vertices
    /\ (length (open_codes codes) <= length vertices)%nat.
Proof.
  intros Hok. unfold SVG_path. fold (path_to_encode transformed path transform).
  destruct (vc_tuples_of_ok _ Hok) as (vc & Hvc & Hlen & Hsum & Hopen).
  rewrite Hvc. cbn [rbind].
  destruct vc as [|t vc'] eqn:Evc.
  - exists [], []. repeat split; simpl in *; lia.
  - rewrite <- Evc in *. clear Evc.
    destruct (reshape_n2_pairs _ _ Hsum) as (vs & Hvs & Hn).
    exists vs, (map snd vc). rewrite Hvs. cbn [rbind].
    repeat split; try lia. now rewrite length_map.
Qed.
End CodecFacts.

Lemma SVG_path_empty_witness :
  Utils.SVG_path segments_transformed segments_iter [] None false = Ok ([], []).
Proof.
  apply (SVG_path_empty segments_transformed segments_iter [] None false).
  reflexivity.
Defined.

Lemma SVG_path_vertex_count_witness :
  exists vertices codes,
    Utils.SVG_path segments_transformed segments_iter closed_triangle None false
    = Ok (vertices, codes)
    /\ length codes = 4%nat
    /\ consumed_total codes = length vertices
    /\ (length (open_codes codes) <= length vertices)%nat.
Proof.
  apply (SVG_path_vertex_count segments_transformed segments_iter closed_triangle
           None false).
  reflexivity.
Defined.

(** A closed triangle is encoded with four commands and three vertices. *)
Lemma SVG_path_more_commands_than_vertices :
  exists vertices codes,
    Utils.SVG_path segments_transformed segments_iter closed_triangle None false
    = Ok (vertices, codes)
    /\ consumed_total codes = length vertices
    /\ ~ (length codes <= length vertices)%nat.
Proof.
  exists [(0, 0); (1, 0); (0, 1)]%float, ["M"; "L"; "L"; "Z"]%string.
  split; [reflexivity|]. split; [reflexivity|]. simpl. lia.
Qed.

(** * Colours *)

Section ColorFacts.
Import Utils.

(** A property checked on each of the 256 byte values holds of every byte. *)
Lemma all_bytes (P : Z -> bool) :
  forallb P (map Z.of_nat (seq 0 256)) = true ->
  forall n, 0 <= n < 256 -> P n = true.
Proof.
  intros Hall n Hn. rewrite forallb_forall in Hall. apply Hall.
  apply in_map_iff. exists (Z.to_nat n). split; [lia|].
  apply in_seq. lia.
Qed.

(** [int(255 * (n / 255.0))] is [n], in binary64 arithmetic, for every
    byte. *)
Lemma channel_round_trip (n : Z) :
  0 <= n < 256 ->
  py_int_of_float (255 * channel_of_byte n)%float = Ok n.
Proof.
  intros Hn.
  pose proof (all_bytes
    (fun n => eq_result_Z (py_int_of_float (255 * channel_of_byte n)%float) n)) as H.
  specialize (H ltac:(vm_compute; reflexivity) n Hn). cbv beta in H.
  destruct (py_int_of_float _); [|discriminate].
  apply Z.eqb_eq in H. now subst.
Qed.

Lemma format_02X_reads_back (n : Z) :
  0 <= n < 256 ->
  exists a b, format_02X n = String a (String b EmptyString) /\ hex_pair a b = Some n.
Proof.
  intros Hn.
  pose proof (all_bytes reads_back ltac:(vm_compute; reflexivity) n Hn) as H.
  unfold reads_back in H.
  destruct (format_02X n) as [|a [|b [|? ?]]]; try discriminate.
  exists a, b. split; [reflexivity|].
  destruct (hex_pair a b); [|discriminate].
  apply Z.eqb_eq in H. now subst.
Qed.

Lemma hex_value_range (c : ascii) (v : Z) : hex_value c = Some v -> 0 <= v < 16.
Proof.
  unfold hex_value.
  repeat match goal with |- context [if ?b then _ else _] => destruct b eqn:? end;
    intros [= <-]; lia.
Qed.

Lemma hex_pair_range (a b : ascii) (n : Z) : hex_pair a b = Some n -> 0 <= n < 256.
Proof.
  unfold hex_pair.
  destruct (hex_value a) as [x|] eqn:Ha; [|discriminate].
  destruct (hex_value b) as [y|] eqn:Hb; [|discriminate].
  intros [= <-]. apply hex_value_range in Ha, Hb. lia.
Qed.

Lemma parse_hex_color_range (s : string) (r g b : Z) :
  parse_hex_color s = Some (r, g, b) ->
  (0 <= r < 256 /\ 0 <= g < 256 /\ 0 <= b < 256)
  /\ exists rest, s = String "#" rest.
Proof.
  unfold parse_hex_color.
  destruct s as [|c0 [|r1 [|r2 [|g1 [|g2 [|b1 [|b2 [|? ?]]]]]]]]; try discriminate;
    try (destruct c0 as [[] [] [] [] [] [] [] []]; discriminate).
  destruct (ascii_dec c0 "#") as [-> | Hne].
  2:{ destruct c0 as [[] [] [] [] [] [] [] []]; try discriminate. now contradiction Hne. }
  destruct (hex_pair r1 r2) eqn:Hr; [|discriminate].
  destruct (hex_pair g1 g2) eqn:Hg; [|discriminate].
  destruct (hex_pair b1 b2) eqn:Hb; [|discriminate].
  intros [= <- <- <-].
  apply hex_pair_range in Hr, Hg, Hb. split; [lia|]. eauto.
Qed.

Lemma parse_hex_string (r g b : Z) :
  0 <= r < 256 -> 0 <= g < 256 -> 0 <= b < 256 ->
  parse_hex_color (hex_string r g b) = Some (r, g, b).
Proof.
  intros Hr Hg Hb. unfold hex_string.
  destruct (format_02X_reads_back r Hr) as (r1 & r2 & -> & Er).
  destruct (format_02X_reads_back g Hg) as (g1 & g2 & -> & Eg).
  destruct (format_02X_reads_back b Hb) as (b1 & b2 & -> & Eb).
  cbv [String.append parse_hex_color]. rewrite Er, Eg, Eb. reflexivity.
Qed.

Variable to_rgb : pyval -> result (float * float * float).

Lemma color_to_hex_of_hex (s : string) (r g b : Z) :
  to_rgb_reads_hex to_rgb ->
  parse_hex_color s = Some (r, g, b) ->
  color_to_hex to_rgb (PStr s) = Ok (hex_string r g b).
Proof.
  intros Hrgb Hs.
  destruct (parse_hex_color_range s r g b Hs) as ((Hr & Hg & Hb) & rest & ->).
  unfold color_to_hex. cbn [existsb py_eqb String.eqb Ascii.eqb Bool.eqb orb].
  rewrite (Hrgb _ _ _ _ Hs). cbn [rbind].
  rewrite !channel_round_trip by assumption. reflexivity.
Qed.

Lemma color_to_hex_none_string : color_to_hex to_rgb (PStr "none") = Ok "none"%string.
Proof. reflexivity. Qed.

(** C8: with a converter that reads "#RRGGBB" strings as matplotlib does,
    [color_to_hex] maps such a string [c] to the upper-case string of its
    three channels, and applying [color_to_hex] to that result returns it
    unchanged: color_to_hex(color_to_hex(c)) = color_to_hex(c). The inputs
    "none", "None" and [None] are mapped to "none". *)
Theorem color_to_hex_idempotent :
  to_rgb_reads_hex to_rgb ->
  (forall (c : string) (r g b : Z),
      parse_hex_color c = Some (r, g, b) ->
      exists h,
        color_to_hex to_rgb (PStr c) = Ok h
        /\ h = hex_string r g b
        /\ rbind (color_to_hex to_rgb (PStr c))
                 (fun h => color_to_hex to_rgb (PStr h))
           = color_to_hex to_rgb (PStr c))
  /\ color_to_hex to_rgb (PStr "none") = Ok "none"%string
  /\ color_to_hex to_rgb (PStr "None") = Ok "none"%string
  /\ color_to_hex to_rgb PNone = Ok "none"%string.
Proof.
  intros Hrgb. split; [|repeat split].
  intros c r g b Hc.
  destruct (parse_hex_color_range c r g b Hc) as ((Hr & Hg & Hb) & _).
  exists (hex_string r g b).
  rewrite (color_to_hex_of_hex c r g b Hrgb Hc). cbn [rbind].
  repeat split.
  apply (color_to_hex_of_hex _ r g b Hrgb).
  now apply parse_hex_string.
Qed.
End ColorFacts.

Lemma hex_only_reads_hex : to_rgb_reads_hex hex_only_to_rgb.
Proof. intros s r g b Hs. unfold hex_only_to_rgb. now rewrite Hs. Qed.

Lemma color_to_hex_idempotent_witness :
  exists h,
    Utils.color_to_hex hex_only_to_rgb (PStr "#1f77b4") = Ok h
    /\ h = "#1F77B4"%string
    /\ rbind (Utils.color_to_hex hex_only_to_rgb (PStr "#1f77b4"))
             (fun h => Utils.color_to_hex hex_only_to_rgb (PStr h))
       = Utils.color_to_hex hex_only_to_rgb (PStr "#1f77b4").
Proof.
  apply (proj1 (color_to_hex_idempotent hex_only_to_rgb hex_only_reads_hex)
           "#1f77b4"%string 31 119 180).
  reflexivity.
Defined.

(** * The renderer: predicates, lines and scopes *)

Lemma line_pathstyle_lookup (color linewidth : pyval) (style : props) :
  line_pathstyle color linewidth style !! "edgecolor"%string = Some color
  /\ line_pathstyle color linewidth style !! "edgewidth"%string = Some linewidth
  /\ line_pathstyle color linewidth style !! "facecolor"%string = Some (PStr "none")
  /\ line_pathstyle color linewidth style !! "color"%string = None
  /\ line_pathstyle color linewidth style !! "linewidth"%string = None
  /\ (forall k : string,
        k ∉ ["edgecolor"; "edgewidth"; "facecolor"; "color"; "linewidth"]%string ->
        line_pathstyle color linewidth style !! k = style !! k).
Proof.
  unfold line_pathstyle. repeat split.
  - now simplify_map_eq.
  - now simplify_map_eq.
  - now simplify_map_eq.
  - now simplify_map_eq.
  - now simplify_map_eq.
  - intros k Hk.
    assert (k <> "edgecolor" /\ k <> "edgewidth" /\ k <> "facecolor"
            /\ k <> "color" /\ k <> "linewidth")%string as (? & ? & ? & ? & ?).
    { repeat split; intros ->; apply Hk; set_solver. }
    now simplify_map_eq.
Qed.

Section RendererFacts.
Import Base.
Context {Figure Gridline MplObject : Type}.
Variable to_rgb : pyval -> result (float * float * float).
Variable affine_transform : matrix -> list point -> list point.
Variable methods : call Figure Gridline MplObject -> result unit.

Local Abbreviation renderer := (Base.renderer Figure Gridline MplObject).

(** C10: for an axes object [a], [ax_has_xgrid] holds exactly when the
    x-axis has [_gridOnMajor] set and the gridline list of the y-axis is not
    empty; [ax_has_ygrid] differs only in testing the flag of the y-axis; the
    gridlines of the x-axis play no part. Both classes agree. *)
Theorem xgrid_reads_y_gridlines (a : Axes Gridline) :
  (ax_has_xgrid (Some a) = true
   <-> _gridOnMajor (xaxis a) = true /\ get_gridlines (yaxis a) <> [])
  /\ (ax_has_ygrid (Some a) = true
      <-> _gridOnMajor (yaxis a) = true /\ get_gridlines (yaxis a) <> [])
  /\ (forall lines : list Gridline,
        ax_has_xgrid (Some (with_xaxis (with_axis_gridlines lines (xaxis a)) a))
        = ax_has_xgrid (Some a))
  /\ Legacy.ax_has_xgrid (Some a) = ax_has_xgrid (Some a)
  /\ Legacy.ax_has_ygrid (Some a) = ax_has_ygrid (Some a).
Proof.
  unfold ax_has_xgrid, ax_has_ygrid.
  split; [|split; [|split; [|split]]]; try reflexivity.
  - split.
    + destruct (_gridOnMajor (xaxis a)); [|discriminate].
      destruct (get_gridlines (yaxis a)); [discriminate|]. now split.
    + intros [-> Hne]. destruct (get_gridlines (yaxis a)); [contradiction|reflexivity].
  - split.
    + destruct (_gridOnMajor (yaxis a)); [|discriminate].
      destruct (get_gridlines (yaxis a)); [discriminate|]. now split.
    + intros [-> Hne]. destruct (get_gridlines (yaxis a)); [contradiction|reflexivity].
Qed.

(** C4: with [offset_order] "before", [draw_path_collection] raises
    [NotImplementedError] whatever the other arguments are, and the renderer
    is left as it was: no [draw_path] call has been made. *)
Theorem offset_before_not_implemented
    (paths : list (list point * list string)) (path_coordinates : string)
    (path_transforms : option (list matrix)) (offsets : list point)
    (offset_coordinates : string) (styles : props) (mplobj : option MplObject)
    (s : renderer) :
  draw_path_collection to_rgb affine_transform methods paths path_coordinates
    path_transforms offsets offset_coordinates "before" styles mplobj s
  = (Raise (NotImplementedError "offset before transform"), s).
Proof. reflexivity. Qed.

(** C5 (amended): for every data array and every style that has "color" and
    "linewidth" and has no "facecolor", [draw_line] makes exactly one
    [draw_path] call: the data unchanged, the commands M followed by one L
    per further point, and a style in which "edgecolor" is the line's colour,
    "edgewidth" its width, "facecolor" is "none", "color" and "linewidth" are
    gone and every other key is as in the line's style. *)
Theorem draw_line_emits_one_path
    (data : list point) (coordinates : string) (style : props)
    (mplobj : option MplObject) (color linewidth : pyval) (s : renderer) :
  style !! "color"%string = Some color ->
  style !! "linewidth"%string = Some linewidth ->
  style !! "facecolor"%string = None ->
  let pathcodes := "M"%string :: repeat "L"%string (length data - 1) in
  let pathstyle := line_pathstyle color linewidth style in
  let c := draw_path_call data coordinates pathcodes pathstyle None "data" mplobj in
  draw_line methods data coordinates style mplobj s = (methods c, received c s)
  /\ calls (received c s) = calls s ++ [c]
  /\ length pathcodes = Nat.max 1 (length data)
  /\ pathstyle !! "edgecolor"%string = Some color
  /\ pathstyle !! "edgewidth"%string = Some linewidth
  /\ pathstyle !! "facecolor"%string = Some (PStr "none")
  /\ pathstyle !! "color"%string = None
  /\ pathstyle !! "linewidth"%string = None
  /\ (forall k : string,
        k ∉ ["edgecolor"; "edgewidth"; "facecolor"; "color"; "linewidth"]%string ->
        pathstyle !! k = style !! k).
Proof.
  intros Hcolor Hwidth Hface pathcodes pathstyle c.
  destruct (line_pathstyle_lookup color linewidth style)
    as (He & Hw & Hf & Hc & Hl & Hk).
  split; [|split; [|split; [|repeat split; assumption]]].
  - unfold draw_line, bind, lift, dict_kw, dict_pop. rewrite Hface.
    assert (H1 : <["facecolor"%string := PStr "none"]> style !! "color"%string = Some color)
      by now simplify_map_eq.
    rewrite H1. cbn [fst snd].
    assert (H2 : <["edgecolor"%string := color]>
                   (delete "color"%string (<["facecolor"%string := PStr "none"]> style))
                   !! "linewidth"%string = Some linewidth)
      by now simplify_map_eq.
    rewrite H2. cbn [fst snd].
    unfold draw_path, invoke, bind, lift, received. cbn.
    destruct (methods _); reflexivity.
  - reflexivity.
  - subst pathcodes. cbn [length]. rewrite repeat_length. lia.
Qed.
End RendererFacts.

Lemma draw_line_emits_one_path_witness :
  Base.draw_line all_return three_points "data" blue_line_style None fresh_renderer
  = (Ok tt,
     received
       (Base.draw_path_call three_points "data" ["M"; "L"; "L"]%string
          (line_pathstyle (PStr "#0000FF") (PInt 2) blue_line_style)
          None "data" None)
       fresh_renderer).
Proof.
  exact (proj1 (draw_line_emits_one_path all_return three_points "data"
                  blue_line_style None (PStr "#0000FF") (PInt 2) fresh_renderer
                  eq_refl eq_refl eq_refl)).
Defined.

(** The style of the blue line of width 2, as [draw_path] receives it. *)
Lemma blue_line_pathstyle :
  line_pathstyle (PStr "#0000FF") (PInt 2) blue_line_style
  = <["edgecolor"%string := PStr "#0000FF"]>
      (<["facecolor"%string := PStr "none"]>
         (<["edgewidth"%string := PInt 2]> ∅)).
Proof. vm_compute. reflexivity. Qed.

(** A line style that already has a "facecolor": the [dict(...)] call of
    line 132 raises, and no [draw_path] call is made. *)
Lemma draw_line_rejects_facecolor :
  line_style_with_facecolor !! "color"%string = Some (PStr "#0000FF")
  /\ line_style_with_facecolor !! "linewidth"%string = Some (PInt 2)
  /\ Base.draw_line all_return three_points "data" line_style_with_facecolor None
       fresh_renderer
     = (Raise (TypeError "dict() got multiple values for keyword argument"),
        fresh_renderer).
Proof. repeat split. Qed.

(** * Scopes *)

Section ScopeFacts.
Import Base.
Context {Figure Gridline MplObject : Type}.
Variable methods : call Figure Gridline MplObject -> result unit.

Local Abbreviation renderer := (Base.renderer Figure Gridline MplObject).

Lemma draw_figure_enters (fig : Figure) (properties : props) (s : renderer) :
  methods (open_figure_call fig properties) = Ok tt ->
  before_yield (draw_figure methods fig properties) s
  = (Ok tt, figure_entered methods fig properties s)
  /\ _current_fig (figure_entered methods fig properties s) = Some (Some fig).
Proof.
  intros Hopen. unfold figure_entered.
  cbn [draw_figure before_yield]. unfold bind, invoke, bind, lift.
  destruct (is_set (_current_fig s)); cbn; rewrite Hopen; split; reflexivity.
Qed.

Lemma draw_axes_enters (ax : Axes Gridline) (properties : props) (s : renderer) :
  methods (open_axes_call ax properties) = Ok tt ->
  before_yield (draw_axes methods ax properties) s
  = (Ok tt, axes_entered methods ax properties s)
  /\ _current_ax (axes_entered methods ax properties s) = Some (Some ax).
Proof.
  intros Hopen. unfold axes_entered.
  cbn [draw_axes before_yield]. unfold bind, invoke, bind, lift.
  destruct (is_set (_current_ax s)); cbn; rewrite Hopen; split; reflexivity.
Qed.

Lemma draw_figure_leaves (fig : Figure) (properties : props) (s : renderer) :
  methods (close_figure_call fig) = Ok tt ->
  after_yield (draw_figure methods fig properties) s
  = (Ok tt, with_fig_closed (received (close_figure_call fig) s)).
Proof.
  intros Hclose. cbn [draw_figure after_yield]. unfold bind, invoke, bind, lift.
  cbn. rewrite Hclose. reflexivity.
Qed.

Lemma draw_axes_leaves (ax : Axes Gridline) (properties : props) (s : renderer) :
  methods (close_axes_call ax) = Ok tt ->
  after_yield (draw_axes methods ax properties) s
  = (Ok tt, with_ax_closed (received (close_axes_call ax) s)).
Proof.
  intros Hclose. cbn [draw_axes after_yield]. unfold bind, invoke, bind, lift.
  cbn. rewrite Hclose. reflexivity.
Qed.

(** One figure scope whose body returns. *)
Lemma figure_scope_returns (fig : Figure) (properties : props)
    (body : renderer -> result unit * renderer) (s s' : renderer) :
  methods (open_figure_call fig properties) = Ok tt ->
  methods (close_figure_call fig) = Ok tt ->
  body (figure_entered methods fig properties s) = (Ok tt, s') ->
  with_statement (draw_figure methods fig properties) body s
  = (Ok tt, with_fig_closed (received (close_figure_call fig) s')).
Proof.
  intros Hopen Hclose Hbody. unfold with_statement.
  destruct (draw_figure_enters fig properties s Hopen) as [-> _].
  rewrite Hbody. now apply draw_figure_leaves.
Qed.

(** One axes scope whose body returns. *)
Lemma axes_scope_returns (ax : Axes Gridline) (properties : props)
    (body : renderer -> result unit * renderer) (s s' : renderer) :
  methods (open_axes_call ax properties) = Ok tt ->
  methods (close_axes_call ax) = Ok tt ->
  body (axes_entered methods ax properties s) = (Ok tt, s') ->
  with_statement (draw_axes methods ax properties) body s
  = (Ok tt, with_ax_closed (received (close_axes_call ax) s')).
Proof.
  intros Hopen Hclose Hbody. unfold with_statement.
  destruct (draw_axes_enters ax properties s Hopen) as [-> _].
  rewrite Hbody. now apply draw_axes_leaves.
Qed.

(** A scope whose body raises: the code after the [yield] does not run, and
    the renderer is as the body left it. *)
Lemma scope_body_raises (cm : generator_cm renderer)
    (body : renderer -> result unit * renderer) (s s1 s2 : renderer) (e : exn) :
  before_yield cm s = (Ok tt, s1) ->
  body s1 = (Raise e, s2) ->
  with_statement cm body s = (Raise e, s2).
Proof. intros Hin Hbody. unfold with_statement. now rewrite Hin, Hbody. Qed.

(** X25: an axes scope inside a figure scope, with hooks that return. When
    the nested work returns, [close_axes] then [close_figure] are called, in
    that order, after everything the nested work did, and the current figure
    and the current axes are both [None] at the end. When the nested work
    raises, the exception reaches the caller and the code after each [yield]
    is skipped: the renderer is as the nested work left it. *)
Theorem scopes_on_exit
    (fig : Figure) (fig_properties : props)
    (ax : Axes Gridline) (ax_properties : props)
    (body : renderer -> result unit * renderer) (s s' : renderer)
    (outcome : result unit) :
  methods (open_figure_call fig fig_properties) = Ok tt ->
  methods (close_figure_call fig) = Ok tt ->
  methods (open_axes_call ax ax_properties) = Ok tt ->
  methods (close_axes_call ax) = Ok tt ->
  body (axes_entered methods ax ax_properties
          (figure_entered methods fig fig_properties s)) = (outcome, s') ->
  match outcome with
  | Ok _ =>
      exists final,
        with_statement (draw_figure methods fig fig_properties)
          (with_statement (draw_axes methods ax ax_properties) body) s
        = (Ok tt, final)
        /\ _current_fig final = Some None
        /\ _current_ax final = Some None
        /\ calls final = calls s' ++ [close_axes_call ax; close_figure_call fig]
        /\ warned final = warned s'
  | Raise e =>
      with_statement (draw_figure methods fig fig_properties)
        (with_statement (draw_axes methods ax ax_properties) body) s
      = (Raise e, s')
  end.
Proof.
  intros Hof Hcf Hoa Hca Hbody.
  destruct outcome as [[] | e].
  - eexists. split.
    + apply figure_scope_returns; [assumption..|].
      apply axes_scope_returns; eassumption.
    + cbn. rewrite <- app_assoc. repeat split.
  - eapply scope_body_raises.
    + exact (proj1 (draw_figure_enters fig fig_properties s Hof)).
    + eapply scope_body_raises; [|exact Hbody].
      exact (proj1 (draw_axes_enters ax ax_properties _ Hoa)).
Qed.
End ScopeFacts.

Lemma scopes_on_exit_witness :
  exists final,
    with_statement (Base.draw_figure Base.Renderer_methods 7%nat ∅)
      (with_statement (Base.draw_axes Base.Renderer_methods an_axes ∅) returning_body)
      fresh_renderer
    = (Ok tt, final)
    /\ Base._current_fig final = Some None
    /\ Base._current_ax final = Some None
    /\ Base.calls final
       = Base.calls (axes_entered Base.Renderer_methods an_axes ∅
                       (figure_entered Base.Renderer_methods 7%nat ∅ fresh_renderer))
         ++ [Base.close_axes_call an_axes; Base.close_figure_call 7%nat]
    /\ Base.warned final = [].
Proof.
  exact (scopes_on_exit Base.Renderer_methods 7%nat ∅ an_axes ∅ returning_body
           fresh_renderer
           (axes_entered Base.Renderer_methods an_axes ∅
              (figure_entered Base.Renderer_methods 7%nat ∅ fresh_renderer))
           (Ok tt) eq_refl eq_refl eq_refl eq_refl eq_refl).
Defined.

(** C1: the nested work raises inside an axes scope inside a figure scope
    on a fresh renderer: the exception reaches the caller, but neither
    [close_axes] nor [close_figure] has been called, and the current figure
    and the current axes are still set instead of being [None]. *)
Lemma scopes_stay_set_when_body_raises :
  let out :=
    with_statement (Base.draw_figure Base.Renderer_methods 7%nat ∅)
      (with_statement (Base.draw_axes Base.Renderer_methods an_axes ∅) failing_body)
      fresh_renderer in
  fst out = Raise (ValueError "nested drawing failed")
  /\ Base._current_fig (snd out) = Some (Some 7%nat)
  /\ Base._current_ax (snd out) = Some (Some an_axes)
  /\ Base.calls (snd out)
     = [Base.open_figure_call 7%nat ∅; Base.open_axes_call an_axes ∅].
Proof. repeat split. Qed.

(** The same scopes in [renderer.py]. *)
Lemma legacy_scope_stays_set_when_body_raises :
  let s0 := {| Legacy._current_fig := None; Legacy._current_ax := None;
               Legacy.warned := []; Legacy.calls := [] |} in
  let out :=
    with_statement (Legacy.draw_figure (fun _ => Ok tt) 7%nat)
      (fun s : Legacy.renderer nat nat => (Raise (ValueError "nested drawing failed"), s))
      s0 in
  fst out = Raise (ValueError "nested drawing failed")
  /\ Legacy._current_fig (snd out) = Some (Some 7%nat)
  /\ Legacy.calls (snd out) = [Legacy.open_figure_call 7%nat].
Proof. repeat split. Qed.

(** * The path collection *)

Section CycleFacts.
Context {A : Type}.
Implicit Types (l : list A) (c : cycle A).

Lemma mod_succ_congr (a b n : nat) :
  (a mod n = b mod n -> S a mod n = S b mod n)%nat.
Proof.
  intros H. rewrite <- (Nat.add_1_r a), <- (Nat.add_1_r b).
  rewrite (Nat.Div0.add_mod a), (Nat.Div0.add_mod b), H. reflexivity.
Qed.

Lemma it_cycle_at l : cycle_at l 0 (it_cycle l).
Proof. split; [reflexivity|]. exists 0%nat. repeat split. simpl. lia. Qed.

(** A cycle over a sequence that is not empty always has a next element:
    the one at the step's index modulo the length. *)
Lemma cycle_next_at l k c :
  l <> [] -> cycle_at l k c ->
  exists x c', cycle_next c = Some (x, c') /\ cyclic l k = Some x
               /\ cycle_at l (S k) c'.
Proof.
  intros Hne (Hsaved & j & Hj & Hpending & Hmod).
  assert (Hlen : (0 < length l)%nat) by (destruct l; [contradiction|simpl; lia]).
  unfold cycle_next, cyclic. rewrite Hpending, Hsaved.
  destruct (decide (j < length l)%nat) as [Hlt | Hge].
  - destruct (lookup_lt_is_Some_2 l j Hlt) as [x Hx].
    rewrite (drop_S l x j Hx).
    exists x, {| pending := drop (S j) l; saved := l |}.
    split; [reflexivity|]. split.
    + rewrite <- Hmod, Nat.mod_small by lia. exact Hx.
    + split; [reflexivity|]. exists (S j). repeat split; [lia|].
      now apply mod_succ_congr.
  - assert (j = length l) as -> by lia.
    rewrite drop_all. destruct l as [|x rest]; [contradiction|].
    exists x, {| pending := rest; saved := x :: rest |}.
    split; [reflexivity|]. split.
    + rewrite <- Hmod, Nat.Div0.mod_same. reflexivity.
    + split; [reflexivity|]. exists 1%nat. repeat split; [simpl; lia|].
      rewrite <- (mod_succ_congr (length (x :: rest)) k _ Hmod).
      rewrite <- (Nat.add_1_r (length _)), Nat.Div0.add_mod, Nat.Div0.mod_same.
      rewrite Nat.add_0_l, Nat.Div0.mod_mod. reflexivity.
Qed.

(** A cycle over the empty sequence ends at once. *)
Lemma cycle_next_empty : cycle_next (it_cycle (@nil A)) = None.
Proof. reflexivity. Qed.

Lemma cyclic_elem l (i : nat) (x : A) : cyclic l i = Some x -> x ∈ l.
Proof. unfold cyclic. intros H. eapply list_elem_of_lookup_2. exact H. Qed.
End CycleFacts.

Lemma normalized_coordinates_idem (pc : string) :
  normalized_coordinates (normalized_coordinates pc) = normalized_coordinates pc.
Proof.
  unfold normalized_coordinates. destruct (String.eqb pc "figure") eqn:E; [reflexivity|].
  now rewrite E.
Qed.

Lemma transforms_or_identity_nonempty (path_transforms : option (list matrix)) :
  Base.transforms_or_identity path_transforms <> [].
Proof. destruct path_transforms as [[|m l]|]; discriminate. Qed.

Lemma sequence_or_none_nonempty (colors : list pyval) : sequence_or_none colors <> [].
Proof.
  unfold sequence_or_none. destruct colors as [|c l]; [discriminate|].
  destruct (np_size (PList (c :: l)) =? 0)%nat; discriminate.
Qed.

Lemma sequence_or_none_empty : sequence_or_none [] = [PStr "none"].
Proof. reflexivity. Qed.

Lemma colors_or_none_iter (colors : list pyval) :
  py_iter (Base.colors_or_none (PList colors)) = Ok (sequence_or_none colors).
Proof.
  unfold Base.colors_or_none, sequence_or_none.
  destruct (np_size (PList colors) =? 0)%nat; reflexivity.
Qed.

Section CollectionLoop.
Import Base.
Context {Figure Gridline MplObject : Type}.
Variable to_rgb : pyval -> result (float * float * float).
Variable affine_transform : matrix -> list point -> list point.
Variable methods : call Figure Gridline MplObject -> result unit.

Local Abbreviation renderer := (Base.renderer Figure Gridline MplObject).

Lemma received_all_nil (s : renderer) : received_all [] s = s.
Proof. destruct s. unfold received_all. cbn. now rewrite app_nil_r. Qed.

Lemma received_all_cons c cs (s : renderer) :
  received_all cs (snd (record_call c s)) = received_all (c :: cs) s.
Proof. unfold received_all. cbn. now rewrite <- app_assoc. Qed.

Variables (paths : list (list point * list string)) (transforms : list matrix)
          (offsets : list point) (ec lw fc : list pyval).
Variables (offset_coordinates : string) (styles : props)
          (mplobj : option MplObject) (alpha zorder : pyval).

Local Abbreviation step_call :=
  (selected to_rgb affine_transform paths transforms offsets ec lw fc
     offset_coordinates mplobj alpha zorder).
Local Abbreviation zip_at := (izip_at paths transforms offsets ec lw fc).

Hypothesis paths_nonempty : paths <> [].
Hypothesis transforms_nonempty : transforms <> [].
Hypothesis offsets_nonempty : offsets <> [].
Hypothesis ec_nonempty : ec <> [].
Hypothesis lw_nonempty : lw <> [].
Hypothesis fc_nonempty : fc <> [].
Hypothesis alpha_given : styles !! "alpha"%string = Some alpha.
Hypothesis zorder_given : styles !! "zorder"%string = Some zorder.
Hypothesis colors_convert :
  forall c, c ∈ ec ++ fc -> exists h, Utils.color_to_hex to_rgb c = Ok h.
Hypothesis draw_path_returns :
  forall data coordinates pathcodes style offset oc obj,
    methods (draw_path_call data coordinates pathcodes style offset oc obj) = Ok tt.

Lemma izip_next_at (k : nat) (z : izip6) :
  zip_at k z ->
  exists path path_transform offset e w f z',
    izip_next z = Some ((path, path_transform, offset, e, w, f), z')
    /\ cyclic paths k = Some path
    /\ cyclic transforms k = Some path_transform
    /\ cyclic offsets k = Some offset
    /\ cyclic ec k = Some e
    /\ cyclic lw k = Some w
    /\ cyclic fc k = Some f
    /\ zip_at (S k) z'.
Proof using paths_nonempty transforms_nonempty offsets_nonempty ec_nonempty
  lw_nonempty fc_nonempty.
  intros (H1 & H2 & H3 & H4 & H5 & H6).
  destruct (cycle_next_at _ _ _ paths_nonempty H1) as (x1 & c1 & E1 & L1 & N1).
  destruct (cycle_next_at _ _ _ transforms_nonempty H2) as (x2 & c2 & E2 & L2 & N2).
  destruct (cycle_next_at _ _ _ offsets_nonempty H3) as (x3 & c3 & E3 & L3 & N3).
  destruct (cycle_next_at _ _ _ ec_nonempty H4) as (x4 & c4 & E4 & L4 & N4).
  destruct (cycle_next_at _ _ _ lw_nonempty H5) as (x5 & c5 & E5 & L5 & N5).
  destruct (cycle_next_at _ _ _ fc_nonempty H6) as (x6 & c6 & E6 & L6 & N6).
  exists x1, x2, x3, x4, x5, x6.
  eexists. unfold izip_next. rewrite E1, E2, E3, E4, E5, E6.
  split; [reflexivity|]. do 6 (split; [assumption|]).
  exact (conj N1 (conj N2 (conj N3 (conj N4 (conj N5 N6))))).
Qed.

(** The loop, started when every cycle has given [k] elements, makes [n]
    calls, and its call number [i] is the one of step [k + i]. *)
Lemma for_each_element_at (n : nat) :
  forall (k : nat) (z : izip6) (pc : string) (s : renderer),
    zip_at k z ->
    exists emitted,
      for_each_element to_rgb affine_transform methods n z pc
        offset_coordinates styles mplobj s
      = (Ok tt, received_all emitted s)
      /\ length emitted = n
      /\ forall i c, emitted !! i = Some c -> step_call pc (k + i)%nat c.
Proof using All.
  induction n as [|n IH]; intros k z pc s Hz.
  - exists []. split; [|split].
    + cbn. unfold ret. now rewrite received_all_nil.
    + reflexivity.
    + intros i c H. discriminate.
  - destruct (izip_next_at k z Hz)
      as ([vertices pathcodes] & tf & offset & e & w & f & z' & Enext
          & L1 & L2 & L3 & L4 & L5 & L6 & Hz').
    destruct (colors_convert e) as [eh Heh].
    { apply elem_of_app. left. eapply cyclic_elem; eassumption. }
    destruct (colors_convert f) as [fh Hfh].
    { apply elem_of_app. right. eapply cyclic_elem; eassumption. }
    set (c0 := draw_path_call (affine_transform tf vertices)
                 (normalized_coordinates pc) pathcodes
                 (collection_style eh w fh alpha zorder)
                 (Some offset) offset_coordinates mplobj
               : call Figure Gridline MplObject).
    destruct (IH (S k) z' (normalized_coordinates pc) (snd (record_call c0 s)) Hz')
      as (rest & Erest & Hlen & Hsel).
    exists (c0 :: rest). split; [|split].
    + cbn [for_each_element]. rewrite Enext.
      unfold bind at 1. unfold draw_collection_element.
      unfold bind, lift. rewrite Heh, Hfh.
      unfold dict_lookup. rewrite alpha_given, zorder_given.
      unfold draw_path, invoke, bind, lift.
      fold (normalized_coordinates pc). fold (collection_style eh w fh alpha zorder).
      fold c0. rewrite (draw_path_returns _ _ _ _ _ _ _ : methods c0 = Ok tt).
      cbn [ret]. unfold ret.
      change (record_call c0 s) with (Ok tt, snd (record_call c0 s)).
      cbn beta iota. rewrite Erest, received_all_cons. reflexivity.
    + simpl. now rewrite Hlen.
    + intros [|i] c Hc.
      * cbn in Hc. injection Hc as <-. rewrite Nat.add_0_r.
        exists vertices, pathcodes, tf, offset, e, w, f, eh, fh.
        repeat split; assumption.
      * cbn in Hc. specialize (Hsel i c Hc).
        rewrite <- Nat.add_succ_comm.
        destruct Hsel as (v' & p' & t' & o' & e' & w' & f' & eh' & fh'
                          & ? & ? & ? & ? & ? & ? & ? & ? & ->).
        exists v', p', t', o', e', w', f', eh', fh'.
        rewrite normalized_coordinates_idem. repeat split; assumption.
Qed.
End CollectionLoop.

Section CollectionFacts.
Import Base.
Context {Figure Gridline MplObject : Type}.
Variable to_rgb : pyval -> result (float * float * float).
Variable affine_transform : matrix -> list point -> list point.
Variable methods : call Figure Gridline MplObject -> result unit.

Local Abbreviation renderer := (Base.renderer Figure Gridline MplObject).

End CollectionFacts.


(** Three paths against five offsets: the paths come in the order 0, 1, 2,
    0, 1, the offsets in the order 0 to 4, and the empty face-colour sequence
    gives "none" in every style. *)
Lemma three_paths_five_offsets :
  Base.calls
    (snd (Base.draw_path_collection hex_only_to_rgb no_transform all_return
            three_paths "figure" None five_offsets "data" "after" collection_styles
            None fresh_renderer))
  = [ Base.draw_path_call [(0, 0)]%float "points" ["M"]%string
        (collection_style "#000000" (PInt 1) "none" (PInt 1) (PInt 3))
        (Some (10, 0)%float) "data" None;
      Base.draw_path_call [(1, 1)]%float "points" ["M"]%string
        (collection_style "#FFFFFF" (PInt 2) "none" (PInt 1) (PInt 3))
        (Some (11, 0)%float) "data" None;
      Base.draw_path_call [(2, 2)]%float "points" ["M"]%string
        (collection_style "#000000" (PInt 1) "none" (PInt 1) (PInt 3))
        (Some (12, 0)%float) "data" None;
      Base.draw_path_call [(0, 0)]%float "points" ["M"]%string
        (collection_style "#FFFFFF" (PInt 2) "none" (PInt 1) (PInt 3))
        (Some (13, 0)%float) "data" None;
      Base.draw_path_call [(1, 1)]%float "points" ["M"]%string
        (collection_style "#000000" (PInt 1) "none" (PInt 1) (PInt 3))
        (Some (14, 0)%float) "data" None ].
Proof. vm_compute. reflexivity. Qed.


(** * Further facts: the style utilities *)

Lemma py_eqb_str_r (e : pyval) (s : string) : py_eqb e (PStr s) = true -> e = PStr s.
Proof. destruct e; simpl; try discriminate. intros H%String.eqb_eq. now subst. Qed.

Lemma py_eqb_str_l (k : pyval) (s : string) : py_eqb (PStr s) k = true -> k = PStr s.
Proof. destruct k; simpl; try discriminate. intros H%String.eqb_eq. now subst. Qed.

Lemma py_eqb_str_refl (s : string) : py_eqb (PStr s) (PStr s) = true.
Proof. simpl. apply String.eqb_refl. Qed.

(** Looking a string key up after an assignment. *)
Lemma dict_get_set_str {V} (knew : pyval) (v : V) (d : list (pyval * V)) (k : string) :
  dict_get (PStr k) (dict_set knew v d)
  = if py_eqb knew (PStr k) then Some v else dict_get (PStr k) d.
Proof.
  induction d as [|[e v'] d IH]; simpl.
  - reflexivity.
  - destruct (py_eqb e knew) eqn:Een; simpl.
    + destruct (py_eqb e (PStr k)) eqn:Eek.
      * apply py_eqb_str_r in Eek. subst e. apply py_eqb_str_l in Een. subst knew.
        now rewrite py_eqb_str_refl.
      * destruct (py_eqb knew (PStr k)) eqn:Enk; [|reflexivity].
        apply py_eqb_str_r in Enk. subst knew. congruence.
    + destruct (py_eqb e (PStr k)) eqn:Eek.
      * destruct (py_eqb knew (PStr k)) eqn:Enk; [|reflexivity].
        apply py_eqb_str_r in Enk, Eek. subst. rewrite py_eqb_str_refl in Een.
        discriminate.
      * exact IH.
Qed.

Lemma dict_get_group {V} (keys : list pyval) (v : V) (d : list (pyval * V)) (k : string) :
  dict_get (PStr k) (fold_left (fun d key => dict_set key v d) keys d)
  = if existsb (fun key => py_eqb key (PStr k)) keys then Some v
    else dict_get (PStr k) d.
Proof.
  revert d. induction keys as [|key keys IH]; intros d; simpl; [reflexivity|].
  rewrite IH, dict_get_set_str.
  destruct (py_eqb key (PStr k)); simpl; [|reflexivity].
  now destruct (existsb _ keys).
Qed.

Lemma many_to_one_group_value {V} (input_dict : list (list pyval * V)) (k : string) :
  dict_get (PStr k) (Utils.many_to_one input_dict) = group_value k input_dict.
Proof.
  unfold Utils.many_to_one, group_value.
  assert (H : forall d acc, dict_get (PStr k) d = acc ->
    dict_get (PStr k)
      (fold_left
         (fun d '(keys, val) => fold_left (fun d key => dict_set key val d) keys d)
         input_dict d)
    = fold_left
        (fun acc '(keys, val) =>
           if existsb (fun key => py_eqb key (PStr k)) keys then Some val else acc)
        input_dict acc).
  { induction input_dict as [|[keys v] rest IH]; intros d acc Hd; simpl; [exact Hd|].
    apply IH. rewrite dict_get_group, Hd. reflexivity. }
  now apply H.
Qed.

Lemma existsb_str_key (keys : list pyval) (k : string) :
  existsb (fun key => py_eqb key (PStr k)) keys = true <-> In (PStr k) keys.
Proof.
  rewrite existsb_exists. split.
  - intros (key & Hin & Heq). apply py_eqb_str_r in Heq. now subst.
  - intros Hin. exists (PStr k). split; [exact Hin|apply py_eqb_str_refl].
Qed.

Lemma group_value_spec {V} (input_dict : list (list pyval * V)) (k : string) :
  match group_value k input_dict with
  | Some v => exists keys, In (keys, v) input_dict /\ In (PStr k) keys
  | None => forall keys v, In (keys, v) input_dict -> ~ In (PStr k) keys
  end.
Proof.
  unfold group_value.
  induction input_dict as [|[keys v] rest IH] using rev_ind; simpl.
  - intros keys v [].
  - rewrite fold_left_app. simpl.
    destruct (existsb (fun key => py_eqb key (PStr k)) keys) eqn:E.
    + exists keys. split; [apply in_or_app; right; now left|].
      now apply existsb_str_key.
    + destruct (fold_left _ rest None) as [v'|].
      * destruct IH as (keys' & Hin & Hk). exists keys'.
        split; [apply in_or_app; now left|exact Hk].
      * intros keys' v' Hin. apply in_app_or in Hin as [Hin | [[= <- <-] | []]].
        -- now apply (IH keys' v').
        -- intros Hk%existsb_str_key. congruence.
Qed.

(** X1: in the dictionary that [many_to_one] builds, a string key listed by
    a group maps to that group's value, provided every group that lists the
    key has the same value; a string key that no group lists is absent. *)
Theorem many_to_one_lookup {V} (input_dict : list (list pyval * V)) (k : string) :
  (forall keys v,
      In (keys, v) input_dict -> In (PStr k) keys ->
      (forall keys' v', In (keys', v') input_dict -> In (PStr k) keys' -> v' = v) ->
      dict_get (PStr k) (Utils.many_to_one input_dict) = Some v)
  /\ ((forall keys v, In (keys, v) input_dict -> ~ In (PStr k) keys) ->
      dict_get (PStr k) (Utils.many_to_one input_dict) = None).
Proof.
  rewrite many_to_one_group_value.
  pose proof (group_value_spec input_dict k) as Hspec.
  split.
  - intros keys v Hin Hk Hsame.
    destruct (group_value k input_dict) as [v'|].
    + destruct Hspec as (keys' & Hin' & Hk'). f_equal. now apply (Hsame keys').
    + exfalso. exact (Hspec keys v Hin Hk).
  - intros Hnone. destruct (group_value k input_dict) as [v'|]; [|reflexivity].
    destruct Hspec as (keys' & Hin' & Hk'). exfalso. exact (Hnone keys' v' Hin' Hk').
Qed.

Lemma dict_get_In {V} (k : pyval) (d : list (pyval * V)) (v : V) :
  dict_get k d = Some v -> exists k', In (k', v) d.
Proof.
  induction d as [|[e v'] d IH]; simpl; [discriminate|].
  destruct (py_eqb e k).
  - intros [= <-]. exists e. now left.
  - intros H. destruct (IH H) as [k' Hk']. exists k'. now right.
Qed.

Lemma LINESTYLES_values (k : pyval) (p : string) :
  dict_get k Utils.LINESTYLES = Some p -> In p dash_patterns.
Proof.
  intros H. apply dict_get_In in H as [k' Hin].
  vm_compute in Hin.
  repeat (destruct Hin as [[= <- <-] | Hin]; [vm_compute; tauto|]).
  destruct Hin.
Qed.

(** X2: [get_dasharray] never issues a warning; and for an object without
    a dash sequence of its own, whatever it returns is one of the five
    patterns of the table. *)
Theorem get_dasharray_quiet (py_str : pyval -> string) (obj : Utils.mplobj)
    (i : option Z) :
  snd (Utils.get_dasharray py_str obj i) = []
  /\ (no_dash_sequence obj ->
      forall p, fst (Utils.get_dasharray py_str obj i) = Ok p -> In p dash_patterns).
Proof.
  unfold Utils.get_dasharray. split.
  - destruct (Utils.obj_dict obj !! "_dashSeq"%string) as [[]|]; try reflexivity;
      destruct (match i with Some _ => _ | None => _ end); try reflexivity;
      destruct (Utils.dict_get_default _ _) as [[?|]|]; reflexivity.
  - intros [-> | ->] p;
      (destruct (match i with Some _ => _ | None => _ end) as [ls|];
         [|simpl; discriminate]);
      unfold Utils.dict_get_default;
      (destruct (hashable ls); [|simpl; discriminate]);
      (destruct (dict_get ls Utils.LINESTYLES) as [q|] eqn:E;
         [|vm_compute; discriminate]);
      simpl; intros [= Hq]; subst; eapply LINESTYLES_values; eassumption.
Qed.

(** X3: for an object without a dash sequence whose [get_linestyle()] is a
    list of styles, [get_dasharray(obj, i)] gives what the style at index
    [i] gives, and so does the negative index [i - len]; without an index
    the list itself is looked up, which is a [TypeError] (unhashable). *)
Theorem get_dasharray_indexed (py_str : pyval -> string) (obj : Utils.mplobj)
    (styles : list pyval) (n : nat) (ls : pyval) :
  no_dash_sequence obj ->
  Utils.get_linestyle obj = PList styles ->
  nth_error styles n = Some ls ->
  hashable ls = true ->
  let expected :=
    match dict_get ls Utils.LINESTYLES with
    | Some dasharray => (Ok dasharray, [])
    | None => (Raise (NameError "warnings"), [])
    end in
  Utils.get_dasharray py_str obj (Some (Z.of_nat n)) = expected
  /\ Utils.get_dasharray py_str obj (Some (Z.of_nat n - Z.of_nat (length styles)))
     = expected
  /\ Utils.get_dasharray py_str obj None = (Raise (TypeError "unhashable type"), []).
Proof.
  intros Hseq Hls Hnth Hhash expected.
  assert (Hlen : (n < length styles)%nat) by (apply nth_error_Some; congruence).
  assert (Hidx : forall j, j = Z.of_nat n \/ j = Z.of_nat n - Z.of_nat (length styles) ->
                 py_getitem (PList styles) j = Ok ls).
  { intros j Hj. unfold py_getitem, py_index.
    set (len := Z.of_nat (length styles)).
    assert (Hj' : (if j <? 0 then j + len else j) = Z.of_nat n).
    { subst len. destruct Hj as [-> | ->].
      - destruct (Z.ltb_spec0 (Z.of_nat n) 0); lia.
      - destruct (Z.ltb_spec0 (Z.of_nat n - Z.of_nat (length styles)) 0); lia. }
    rewrite Hj'.
    destruct (Z.ltb_spec0 (Z.of_nat n) 0); [lia|].
    destruct (Z.leb_spec0 len (Z.of_nat n)); [subst len; lia|].
    simpl. rewrite Nat2Z.id, Hnth. reflexivity. }
  assert (Hd : Utils.dict_get_default Utils.LINESTYLES ls
               = Ok (dict_get ls Utils.LINESTYLES)).
  { unfold Utils.dict_get_default. now rewrite Hhash. }
  unfold Utils.get_dasharray.
  repeat split.
  - destruct Hseq as [-> | ->]; rewrite Hls, (Hidx _ (or_introl eq_refl)), Hd;
      subst expected; destruct (dict_get ls Utils.LINESTYLES); reflexivity.
  - destruct Hseq as [-> | ->]; rewrite Hls, (Hidx _ (or_intror eq_refl)), Hd;
      subst expected; destruct (dict_get ls Utils.LINESTYLES); reflexivity.
  - destruct Hseq as [-> | ->]; rewrite Hls; reflexivity.
Qed.

(** * Further facts: the path codec *)

Lemma PATH_DICT_letters (c : Z) (letter : string) :
  Utils.PATH_DICT !! c = Some letter -> In letter svg_letters.
Proof.
  unfold Utils.PATH_DICT. intros H.
  repeat (rewrite lookup_insert in H; destruct (decide _);
          [injection H as <-; vm_compute; tauto|]).
  rewrite lookup_empty in H. discriminate.
Qed.

Lemma vc_tuples_of_inv (segments : list (list float * Z)) (vc : list (list float * string)) :
  Utils.vc_tuples_of segments = Ok vc ->
  length vc = length segments
  /\ Forall (fun letter => In letter svg_letters) (map snd vc)
  /\ length (concat (map fst vc)) = kept_coordinates segments.
Proof.
  revert vc. induction segments as [|[v c] segments IH]; intros vc; simpl.
  - intros [= <-]. repeat split. constructor.
  - destruct (Utils.PATH_DICT !! c) as [letter|] eqn:El; [|discriminate].
    destruct (Utils.vc_tuples_of segments) as [rest|]; [|discriminate].
    simpl. intros [= <-].
    destruct (IH rest eq_refl) as (Hlen & Hall & Hsum).
    split; [simpl; lia|]. split.
    + simpl. constructor; [eapply PATH_DICT_letters; eassumption|exact Hall].
    + unfold kept_coordinates in *. cbn [map list_sum fst snd concat].
      rewrite length_app, Hsum.
      destruct (c =? Utils.Path.CLOSEPOLY); reflexivity.
Qed.

Lemma reshape_n2_length (flat : list float) :
  forall vs, Utils.reshape_n2 flat = Ok vs -> (2 * length vs = length flat)%nat.
Proof.
  induction flat as [flat IH] using (induction_ltof1 _ (@length float)).
  unfold ltof in IH. intros vs.
  destruct flat as [|x [|y rest]]; simpl.
  - intros [= <-]. reflexivity.
  - discriminate.
  - destruct (Utils.reshape_n2 rest) as [r|] eqn:E; [|discriminate].
    simpl. intros [= <-]. simpl.
    specialize (IH rest ltac:(simpl; lia) r E). lia.
Qed.

Lemma reshape_n2_app (a b : list float) (va : list (float * float)) :
  Utils.reshape_n2 a = Ok va ->
  Utils.reshape_n2 (a ++ b)
  = rbind (Utils.reshape_n2 b) (fun vb => Ok (va ++ vb)).
Proof.
  revert va. induction a as [a IH] using (induction_ltof1 _ (@length float)).
  unfold ltof in IH. intros va.
  destruct a as [|x [|y rest]]; simpl.
  - intros [= <-]. destruct (Utils.reshape_n2 b); reflexivity.
  - discriminate.
  - destruct (Utils.reshape_n2 rest) as [r|] eqn:E; [|discriminate].
    simpl. intros [= <-].
    rewrite (IH rest ltac:(simpl; lia) r E).
    destruct (Utils.reshape_n2 b); reflexivity.
Qed.

Lemma vc_tuples_of_app (a b : list (list float * Z)) :
  Utils.vc_tuples_of (a ++ b)
  = rbind (Utils.vc_tuples_of a)
      (fun va => rbind (Utils.vc_tuples_of b) (fun vb => Ok (va ++ vb))).
Proof.
  induction a as [|[v c] a IH]; simpl.
  - destruct (Utils.vc_tuples_of b); reflexivity.
  - destruct (Utils.PATH_DICT !! c); [|reflexivity].
    rewrite IH. destruct (Utils.vc_tuples_of a); [|reflexivity]. simpl.
    destruct (Utils.vc_tuples_of b); reflexivity.
Qed.

Section CodecMore.
Context {MplPath Transform : Type}.
Variable transformed : MplPath -> Transform -> MplPath.
Variable iter_segments : MplPath -> bool -> list (list float * Z).

(** What [SVG_path] computes, in one equation: the special case of the empty
    path gives what the general case would. *)
Lemma SVG_path_unfold (path : MplPath) (transform : option Transform) (simplify : bool) :
  Utils.SVG_path transformed iter_segments path transform simplify
  = rbind (Utils.vc_tuples_of
             (iter_segments (path_to_encode transformed path transform) simplify))
      (fun vc => rbind (Utils.reshape_n2 (concat (map fst vc)))
                   (fun vs => Ok (vs, map snd vc))).
Proof using Type.
  unfold Utils.SVG_path. fold (path_to_encode transformed path transform).
  destruct (Utils.vc_tuples_of _) as [[|t vc]|]; reflexivity.
Qed.

(** X4: whenever [SVG_path] returns, it returns one command per segment,
    every command is one of L, M, S, C, Z, and twice the number of vertices
    is the number of coordinates of the segments that are not closes. *)
Theorem SVG_path_returns_letters (path : MplPath) (transform : option Transform)
    (simplify : bool) (vertices : list (float * float)) (codes : list string) :
  Utils.SVG_path transformed iter_segments path transform simplify
  = Ok (vertices, codes) ->
  let segments := iter_segments (path_to_encode transformed path transform) simplify in
  length codes = length segments
  /\ Forall (fun letter => In letter svg_letters) codes
  /\ (2 * length vertices = kept_coordinates segments)%nat.
Proof using Type.
  rewrite SVG_path_unfold. intros H segments. subst segments.
  destruct (Utils.vc_tuples_of _) as [vc|] eqn:Evc; [|discriminate].
  simpl in H.
  destruct (Utils.reshape_n2 _) as [vs|] eqn:Evs; [|discriminate].
  simpl in H. injection H as <- <-.
  destruct (vc_tuples_of_inv _ _ Evc) as (Hlen & Hall & Hsum).
  split; [now rewrite length_map|]. split; [exact Hall|].
  rewrite <- Hsum. now apply reshape_n2_length.
Qed.

(** X5: encoding distributes over concatenation: when the segments of a
    path are those of a first path followed by those of a second, and the
    two encode, the path encodes as the two vertex arrays and the two
    command lists joined in order. *)
Theorem SVG_path_concatenation (p p1 p2 : MplPath) (simplify : bool)
    (v1 v2 : list (float * float)) (c1 c2 : list string) :
  iter_segments p simplify = iter_segments p1 simplify ++ iter_segments p2 simplify ->
  Utils.SVG_path transformed iter_segments p1 None simplify = Ok (v1, c1) ->
  Utils.SVG_path transformed iter_segments p2 None simplify = Ok (v2, c2) ->
  Utils.SVG_path transformed iter_segments p None simplify = Ok (v1 ++ v2, c1 ++ c2).
Proof using Type.
  rewrite !SVG_path_unfold. cbn [path_to_encode]. intros -> H1 H2.
  rewrite vc_tuples_of_app.
  destruct (Utils.vc_tuples_of (iter_segments p1 simplify)) as [vc1|]; [|discriminate].
  destruct (Utils.vc_tuples_of (iter_segments p2 simplify)) as [vc2|]; [|discriminate].
  simpl in *.
  destruct (Utils.reshape_n2 (concat (map fst vc1))) as [r1|] eqn:E1; [|discriminate].
  destruct (Utils.reshape_n2 (concat (map fst vc2))) as [r2|] eqn:E2; [|discriminate].
  simpl in *. injection H1 as <- <-. injection H2 as <- <-.
  rewrite !map_app, concat_app, (reshape_n2_app _ _ _ E1), E2. reflexivity.
Qed.

(** X6: a segment whose code is none of the five of [PATH_DICT], after
    segments that are well formed, makes [SVG_path] raise [KeyError] with
    that code. *)
Theorem SVG_path_unknown_code (path : MplPath) (transform : option Transform)
    (simplify : bool) (before after : list (list float * Z)) (v : list float) (c : Z) :
  iter_segments (path_to_encode transformed path transform) simplify
  = before ++ (v, c) :: after ->
  forallb segment_ok before = true ->
  ~ In c [Utils.Path.LINETO; Utils.Path.MOVETO; Utils.Path.CURVE3;
          Utils.Path.CURVE4; Utils.Path.CLOSEPOLY] ->
  Utils.SVG_path transformed iter_segments path transform simplify
  = Raise (KeyError (Utils.py_repr_Z c)).
Proof using Type.
  intros Hsegs Hok Hc. rewrite SVG_path_unfold, Hsegs, vc_tuples_of_app.
  destruct (vc_tuples_of_ok before Hok) as (vc & -> & _). cbn [rbind].
  cbn [Utils.vc_tuples_of].
  assert (Hnone : Utils.PATH_DICT !! c = None).
  { unfold Utils.PATH_DICT.
    repeat (rewrite lookup_insert; destruct (decide _);
            [subst c; exfalso; apply Hc; vm_compute; tauto|]).
    apply lookup_empty. }
  rewrite Hnone. reflexivity.
Qed.
End CodecMore.

(** * Further facts: colours, style records and axis properties *)

(** X7: [color_to_hex] loses nothing of a hex colour: the string it returns
    for "#RRGGBB" reads back as the same three channels. *)
Theorem color_to_hex_keeps_channels
    (to_rgb : pyval -> result (float * float * float)) (c : string) (r g b : Z) :
  to_rgb_reads_hex to_rgb ->
  parse_hex_color c = Some (r, g, b) ->
  exists h, Utils.color_to_hex to_rgb (PStr c) = Ok h
            /\ parse_hex_color h = Some (r, g, b).
Proof.
  intros Hrgb Hc. exists (hex_string r g b). split.
  - now apply color_to_hex_of_hex.
  - destruct (parse_hex_color_range c r g b Hc) as ((Hr & Hg & Hb) & _).
    now apply parse_hex_string.
Qed.

(** X8: [color_to_hex] does not depend on the case of the hex digits: two
    hex colour strings with the same channels have the same result. *)
Theorem color_to_hex_ignores_case
    (to_rgb : pyval -> result (float * float * float)) (c1 c2 : string) :
  to_rgb_reads_hex to_rgb ->
  parse_hex_color c1 <> None ->
  parse_hex_color c1 = parse_hex_color c2 ->
  Utils.color_to_hex to_rgb (PStr c1) = Utils.color_to_hex to_rgb (PStr c2).
Proof.
  intros Hrgb Hsome Heq.
  destruct (parse_hex_color c1) as [[[r g] b]|] eqn:E1; [|contradiction].
  rewrite (color_to_hex_of_hex to_rgb c1 r g b Hrgb E1).
  rewrite (color_to_hex_of_hex to_rgb c2 r g b Hrgb (eq_sym Heq)). reflexivity.
Qed.

Lemma alpha_or_one_entry (style : props) (alpha : pyval) :
  style !! "alpha"%string = Some (Styles.alpha_or_one alpha) ->
  alpha_entry style alpha.
Proof.
  intros H. exists (Styles.alpha_or_one alpha). split; [exact H|].
  destruct alpha; simpl; repeat split; try discriminate; try congruence.
Qed.

Section StyleFacts.
Import Styles.
Variable to_rgb : pyval -> result (float * float * float).
Variable py_str : pyval -> string.
Context {MplPath Transform MarkerStyleObj : Type}.
Variable MarkerStyle : pyval -> result MarkerStyleObj.
Variable get_path : MarkerStyleObj -> MplPath.
Variable get_transform : MarkerStyleObj -> Transform.
Variable then_scale : Transform -> pyval -> Transform.
Variable transformed : MplPath -> Transform -> MplPath.
Variable iter_segments : MplPath -> bool -> list (list float * Z).

(** X9: in the style returned by each of [get_path_style],
    [get_line_style], [get_text_style] and [get_marker_style], "alpha" is
    present and is never [None]: it is 1 when the object's [get_alpha()] is
    [None], and the object's alpha otherwise. *)
Theorem styles_alpha_never_none :
  (forall path style w,
      get_path_style to_rgb py_str path = (Ok style, w) ->
      alpha_entry style (path_get_alpha path))
  /\ (forall line style w,
        get_line_style to_rgb py_str line = (Ok style, w) ->
        alpha_entry style (line_get_alpha line))
  /\ (forall text style,
        get_text_style to_rgb text = Ok style ->
        alpha_entry style (text_get_alpha text))
  /\ (forall line style,
        get_marker_style to_rgb MarkerStyle get_path get_transform then_scale
          transformed iter_segments line = Ok style ->
        alpha_entry (Base.ms_entries style) (line_get_alpha line)).
Proof using Type.
  repeat split.
  - intros path style w. unfold get_path_style.
    destruct (Utils.color_to_hex to_rgb (path_get_edgecolor path)); [|discriminate].
    destruct (Utils.color_to_hex to_rgb (path_get_facecolor path)); [|discriminate].
    destruct (Utils.get_dasharray py_str (path_obj path) None) as [[d|] ?];
      [|discriminate].
    intros [= <- <-]. apply alpha_or_one_entry. now simplify_map_eq.
  - intros line style w. unfold get_line_style.
    destruct (Utils.color_to_hex to_rgb (line_get_color line)); [|discriminate].
    destruct (Utils.get_dasharray py_str (line_obj line) None) as [[d|] ?];
      [|discriminate].
    intros [= <- <-]. apply alpha_or_one_entry. now simplify_map_eq.
  - intros text style. unfold get_text_style.
    destruct (Utils.color_to_hex to_rgb (text_get_color text)); [|discriminate].
    simpl. intros [= <-]. apply alpha_or_one_entry. now simplify_map_eq.
  - intros line style. unfold get_marker_style.
    destruct (Utils.color_to_hex to_rgb (line_get_markerfacecolor line)); [|discriminate].
    destruct (Utils.color_to_hex to_rgb (line_get_markeredgecolor line)); [|discriminate].
    simpl.
    destruct (MarkerStyle (line_get_marker line)); [|discriminate]. simpl.
    destruct (Utils.SVG_path _ _ _ _ _); [|discriminate]. simpl.
    intros [= <-]. apply alpha_or_one_entry. simpl. now simplify_map_eq.
Qed.

(** X10: for a line or a patch without a dash sequence whose linestyle is
    not in the table, [get_line_style] and [get_path_style] return no style
    at all: the [NameError] of [get_dasharray] goes through them. *)
Theorem unknown_linestyle_breaks_styles :
  (forall line color,
      no_dash_sequence (line_obj line) ->
      hashable (Utils.get_linestyle (line_obj line)) = true ->
      dict_get (Utils.get_linestyle (line_obj line)) Utils.LINESTYLES = None ->
      Utils.color_to_hex to_rgb (line_get_color line) = Ok color ->
      get_line_style to_rgb py_str line = (Raise (NameError "warnings"), []))
  /\ (forall path edgecolor facecolor,
        no_dash_sequence (path_obj path) ->
        hashable (Utils.get_linestyle (path_obj path)) = true ->
        dict_get (Utils.get_linestyle (path_obj path)) Utils.LINESTYLES = None ->
        Utils.color_to_hex to_rgb (path_get_edgecolor path) = Ok edgecolor ->
        Utils.color_to_hex to_rgb (path_get_facecolor path) = Ok facecolor ->
        get_path_style to_rgb py_str path = (Raise (NameError "warnings"), [])).
Proof using Type.
  split.
  - intros line color Hseq Hhash Hnone Hcolor. unfold get_line_style.
    rewrite Hcolor, (get_dasharray_named py_str _ _ Hseq eq_refl Hhash), Hnone.
    reflexivity.
  - intros path ec fc Hseq Hhash Hnone Hec Hfc. unfold get_path_style.
    rewrite Hec, Hfc, (get_dasharray_named py_str _ _ Hseq eq_refl Hhash), Hnone.
    reflexivity.
Qed.
End StyleFacts.

(** X11: [get_axis_properties] raises [ValueError] for an object that is
    neither an XAxis nor a YAxis; otherwise it returns a dictionary with
    exactly the keys position, nticks, tickvalues and tickformat, where the
    position is bottom or top for an XAxis and left or right for a YAxis
    (bottom and left when "label1On" is not set), nticks is the number of
    locations the major locator gives, and tickvalues is that list for a
    [FixedLocator] and [None] otherwise. *)
Theorem get_axis_properties_outcome (axis : Styles.MplAxis) :
  match Styles.axis_isinstance axis with
  | Styles.NotAnAxis =>
      Styles.get_axis_properties axis
      = Raise (ValueError (Styles.axis_str axis +:+ " should be an Axis instance"))
  | kind =>
      exists props position,
        Styles.get_axis_properties axis = Ok props
        /\ dom props = {["position"; "nticks"; "tickvalues"; "tickformat"]}%string
        /\ props !! "position"%string = Some (PStr position)
        /\ In position (match kind with
                        | Styles.XAxis => ["bottom"; "top"]
                        | _ => ["left"; "right"]
                        end)%string
        /\ (Styles._major_tick_kw axis !! "label1On"%string = None ->
            position = match kind with Styles.XAxis => "bottom" | _ => "left" end%string)
        /\ props !! "nticks"%string
           = Some (PInt (Z.of_nat (length (Styles.locator_call axis))))
        /\ props !! "tickvalues"%string
           = Some (if Styles.locator_is_fixed axis
                   then PList (Styles.locator_call axis) else PNone)
  end.
Proof.
  unfold Styles.get_axis_properties.
  destruct (Styles.axis_isinstance axis); [| |reflexivity].
  - eexists _, _. cbn [rbind]. split; [reflexivity|].
    split; [rewrite !dom_insert_L, dom_empty_L; set_solver|].
    split; [now simplify_map_eq|]. split.
    { destruct (match Styles._major_tick_kw axis !! "label1On"%string with
                | Some v => _ | None => _ end); simpl; tauto. }
    split; [intros ->; reflexivity|].
    split; now simplify_map_eq.
  - eexists _, _. cbn [rbind]. split; [reflexivity|].
    split; [rewrite !dom_insert_L, dom_empty_L; set_solver|].
    split; [now simplify_map_eq|]. split.
    { destruct (match Styles._major_tick_kw axis !! "label1On"%string with
                | Some v => _ | None => _ end); simpl; tauto. }
    split; [intros ->; reflexivity|].
    split; now simplify_map_eq.
Qed.

Lemma any_visible (l : list bool) :
  existsb (fun visible => visible) l = true <-> Exists (fun visible => visible = true) l.
Proof. rewrite existsb_exists, List.Exists_exists. reflexivity. Qed.

Lemma none_visible (l : list bool) :
  existsb (fun visible => visible) l = false <-> Forall (fun visible => visible = false) l.
Proof.
  induction l as [|b l IH]; simpl.
  - split; [constructor|reflexivity].
  - rewrite orb_false_iff, IH. split.
    + intros [-> H]. now constructor.
    + intros H. inversion H; subst. now split.
Qed.

(** X12: in the properties [get_axis_properties] returns, "tickformat" is
    the empty string exactly when the major formatter is a [NullFormatter]
    or no tick label is visible (in particular when there is no tick label),
    and [None] exactly when the formatter is not null and some label is
    visible. *)
Theorem tickformat_hidden_labels (axis : Styles.MplAxis) (props : gmap string pyval) :
  Styles.get_axis_properties axis = Ok props ->
  (props !! "tickformat"%string = Some (PStr "")
   <-> Styles.formatter_is_null axis = true
       \/ Forall (fun visible => visible = false) (Styles.ticklabels_visible axis))
  /\ (props !! "tickformat"%string = Some PNone
      <-> Styles.formatter_is_null axis = false
          /\ Exists (fun visible => visible = true) (Styles.ticklabels_visible axis)).
Proof.
  unfold Styles.get_axis_properties.
  destruct (match Styles.axis_isinstance axis with
            | Styles.NotAnAxis => _ | _ => _ end) as [position|]; [|discriminate].
  cbn [rbind]. intros [= <-]. rewrite lookup_insert_eq.
  pose proof (any_visible (Styles.ticklabels_visible axis)) as Hvis.
  pose proof (none_visible (Styles.ticklabels_visible axis)) as Hinv.
  destruct (Styles.formatter_is_null axis); simpl.
  - split; split.
    + intros _. now left.
    + reflexivity.
    + discriminate.
    + intros [[=] _].
  - destruct (existsb _ _) eqn:E; simpl.
    + split; split.
      * discriminate.
      * intros [[=] | H]. apply Hinv in H. congruence.
      * intros _. split; [reflexivity|]. now apply Hvis.
      * reflexivity.
    + split; split.
      * intros _. right. now apply Hinv.
      * reflexivity.
      * discriminate.
      * intros [_ H]. apply Hvis in H. congruence.
Qed.

(** * Further facts: lines, markers and collections *)

Section RendererMore.
Import Base.
Context {Figure Gridline MplObject : Type}.
Variable methods : call Figure Gridline MplObject -> result unit.

Local Abbreviation renderer := (Base.renderer Figure Gridline MplObject).

(** X13: [draw_line] raises and leaves the renderer unchanged, without any
    [draw_path] call, when the style has a "facecolor" ([TypeError]), and
    otherwise when it lacks "color" ([KeyError] "color") or, having a
    colour, lacks "linewidth" ([KeyError] "linewidth"). *)
Theorem draw_line_rejected_styles (data : list point) (coordinates : string)
    (style : props) (mplobj : option MplObject) (s : renderer) :
  (is_Some (style !! "facecolor"%string) ->
   draw_line methods data coordinates style mplobj s
   = (Raise (TypeError "dict() got multiple values for keyword argument"), s))
  /\ (style !! "facecolor"%string = None ->
      style !! "color"%string = None ->
      draw_line methods data coordinates style mplobj s
      = (Raise (KeyError "color"), s))
  /\ (style !! "facecolor"%string = None ->
      is_Some (style !! "color"%string) ->
      style !! "linewidth"%string = None ->
      draw_line methods data coordinates style mplobj s
      = (Raise (KeyError "linewidth"), s)).
Proof using Type.
  unfold draw_line, bind, lift, dict_kw, dict_pop. repeat split.
  - intros [v ->]. reflexivity.
  - intros -> Hcolor.
    assert (H : <["facecolor"%string := PStr "none"]> style !! "color"%string = None)
      by now simplify_map_eq.
    now rewrite H.
  - intros -> [color Hcolor] Hwidth.
    assert (H1 : <["facecolor"%string := PStr "none"]> style !! "color"%string = Some color)
      by now simplify_map_eq.
    rewrite H1. cbn [fst snd].
    assert (H2 : <["edgecolor"%string := color]>
                   (delete "color"%string (<["facecolor"%string := PStr "none"]> style))
                   !! "linewidth"%string = None)
      by now simplify_map_eq.
    now rewrite H2.
Qed.

(** X15: when the style lacks the marker path or one of alpha, edgecolor,
    facecolor, edgewidth, [draw_markers] raises [KeyError] on one of those
    keys and leaves the renderer unchanged: no marker is drawn, however many
    data points there are. *)
Theorem draw_markers_missing_entry
    (data : list point) (coordinates : string) (style : marker_style)
    (mplobj : option MplObject) (s : renderer) :
  (ms_markerpath style = None ->
   draw_markers methods data coordinates style mplobj s
   = (Raise (KeyError "markerpath"), s))
  /\ (forall key,
        In key marker_keys -> ms_entries style !! key = None ->
        exists missing,
          In missing ("markerpath"%string :: marker_keys)
          /\ draw_markers methods data coordinates style mplobj s
             = (Raise (KeyError missing), s)).
Proof using Type.
  unfold draw_markers, bind, lift, dict_lookup. split.
  - intros ->. reflexivity.
  - intros key Hkey Hnone.
    destruct (ms_markerpath style) as [[vertices pathcodes]|];
      [|exists "markerpath"%string; split; [now left|reflexivity]].
    destruct (ms_entries style !! "alpha"%string) eqn:Ea;
      [|exists "alpha"%string; split; [vm_compute; tauto|reflexivity]].
    destruct (ms_entries style !! "edgecolor"%string) eqn:Ee;
      [|exists "edgecolor"%string; split; [vm_compute; tauto|reflexivity]].
    destruct (ms_entries style !! "facecolor"%string) eqn:Ef;
      [|exists "facecolor"%string; split; [vm_compute; tauto|reflexivity]].
    destruct (ms_entries style !! "edgewidth"%string) eqn:Ew;
      [|exists "edgewidth"%string; split; [vm_compute; tauto|reflexivity]].
    exfalso. destruct Hkey as [<- | [<- | [<- | [<- | []]]]]; congruence.
Qed.
End RendererMore.

Section AbstractRenderer.
Import Base.
Context {Figure Gridline MplObject : Type}.

Local Abbreviation renderer := (Base.renderer Figure Gridline MplObject).
Local Abbreviation Renderer_methods := (@Base.Renderer_methods Figure Gridline MplObject).

(** X16: on the [Renderer] class itself, whose [draw_path] is abstract,
    [draw_markers] returns normally when there is no data point, and with
    data raises [NotImplementedError] once the first point's [draw_path]
    call has been made. *)
Theorem abstract_draw_path_reached
    (coordinates : string) (style : marker_style) (mplobj : option MplObject)
    (vertices : list point) (pathcodes : list string)
    (alpha edgecolor facecolor edgewidth : pyval) (s : renderer) :
  ms_markerpath style = Some (vertices, pathcodes) ->
  ms_entries style !! "alpha"%string = Some alpha ->
  ms_entries style !! "edgecolor"%string = Some edgecolor ->
  ms_entries style !! "facecolor"%string = Some facecolor ->
  ms_entries style !! "edgewidth"%string = Some edgewidth ->
  draw_markers Renderer_methods [] coordinates style mplobj s = (Ok tt, s)
  /\ forall vertex data,
       draw_markers Renderer_methods (vertex :: data) coordinates style mplobj s
       = (Raise (NotImplementedError ""),
          received
            (draw_path_call vertices "points" pathcodes
               (marker_pathstyle alpha edgecolor facecolor edgewidth)
               (Some vertex) coordinates mplobj) s).
Proof using Type.
  intros Hpath Ha He Hf Hw.
  unfold draw_markers, bind, lift, dict_lookup. rewrite Hpath, Ha, He, Hf, Hw.
  split; reflexivity.
Qed.
End AbstractRenderer.

Section CollectionEdges.
Import Base.
Context {Figure Gridline MplObject : Type}.
Variable to_rgb : pyval -> result (float * float * float).
Variable affine_transform : matrix -> list point -> list point.
Variable methods : call Figure Gridline MplObject -> result unit.

Local Abbreviation renderer := (Base.renderer Figure Gridline MplObject).

Lemma for_each_element_exhausted (n : nat) (z : izip6) (pc oc : string)
    (styles : props) (mplobj : option MplObject) (s : renderer) :
  izip_next z = None ->
  for_each_element to_rgb affine_transform methods n z pc oc styles mplobj s
  = (Ok tt, s).
Proof using Type. intros H. destruct n; cbn; [reflexivity|]. now rewrite H. Qed.

Lemma izip_next_exhausted
    (paths : list (list point * list string)) (transforms : list matrix)
    (offsets : list point) (ec lw fc : list pyval) :
  paths = [] \/ offsets = [] \/ lw = [] ->
  izip_next {| z_paths := it_cycle paths; z_transforms := it_cycle transforms;
               z_offsets := it_cycle offsets; z_edgecolor := it_cycle ec;
               z_linewidth := it_cycle lw; z_facecolor := it_cycle fc |} = None.
Proof using Type.
  intros H. unfold izip_next. cbn [z_paths z_transforms z_offsets z_edgecolor
                                     z_linewidth z_facecolor].
  destruct (cycle_next (it_cycle paths)) as [[? ?]|] eqn:E1;
    [|reflexivity].
  destruct (cycle_next (it_cycle transforms)) as [[? ?]|]; [|reflexivity].
  destruct (cycle_next (it_cycle offsets)) as [[? ?]|] eqn:E3; [|reflexivity].
  destruct (cycle_next (it_cycle ec)) as [[? ?]|]; [|reflexivity].
  destruct (cycle_next (it_cycle lw)) as [[? ?]|] eqn:E5; [|reflexivity].
  exfalso. destruct H as [-> | [-> | ->]]; discriminate.
Qed.

(** X17: when the paths, the offsets or the linewidths are empty,
    [draw_path_collection] (with an offset order other than "before")
    returns normally and makes no [draw_path] call, whatever
    max(len(paths), len(offsets)) is. *)
Theorem path_collection_empty_sequence
    (paths : list (list point * list string)) (path_coordinates : string)
    (path_transforms : option (list matrix)) (offsets : list point)
    (offset_coordinates offset_order : string) (styles : props)
    (mplobj : option MplObject) (ec lw fc : list pyval) (s : renderer) :
  offset_order <> "before"%string ->
  styles !! "edgecolor"%string = Some (PList ec) ->
  styles !! "facecolor"%string = Some (PList fc) ->
  styles !! "linewidth"%string = Some (PList lw) ->
  paths = [] \/ offsets = [] \/ lw = [] ->
  draw_path_collection to_rgb affine_transform methods paths path_coordinates
    path_transforms offsets offset_coordinates offset_order styles mplobj s
  = (Ok tt, s).
Proof using Type.
  intros Horder Hec Hfc Hlw Hempty. unfold draw_path_collection.
  destruct (String.eqb_spec offset_order "before") as [E | _]; [contradiction|].
  unfold bind, lift, _iter_path_collection, dict_lookup.
  rewrite Hec, Hfc, Hlw. cbn [rbind].
  rewrite !colors_or_none_iter. cbn [rbind py_iter fst snd].
  apply for_each_element_exhausted. now apply izip_next_exhausted.
Qed.

(** X18: when the styles lack "edgecolor", "facecolor" or "linewidth",
    [draw_path_collection] raises [KeyError] on one of these keys and leaves
    the renderer unchanged. *)
Theorem path_collection_missing_style
    (paths : list (list point * list string)) (path_coordinates : string)
    (path_transforms : option (list matrix)) (offsets : list point)
    (offset_coordinates offset_order : string) (styles : props)
    (mplobj : option MplObject) (key : string) (s : renderer) :
  offset_order <> "before"%string ->
  In key collection_keys ->
  styles !! key = None ->
  exists missing,
    In missing collection_keys
    /\ draw_path_collection to_rgb affine_transform methods paths path_coordinates
         path_transforms offsets offset_coordinates offset_order styles mplobj s
       = (Raise (KeyError missing), s).
Proof using Type.
  intros Horder Hkey Hnone. unfold draw_path_collection.
  destruct (String.eqb_spec offset_order "before") as [E | _]; [contradiction|].
  unfold bind, lift, _iter_path_collection, dict_lookup.
  destruct (styles !! "edgecolor"%string) eqn:Ee;
    [|exists "edgecolor"%string; split; [vm_compute; tauto|reflexivity]].
  destruct (styles !! "facecolor"%string) eqn:Ef;
    [|exists "facecolor"%string; split; [vm_compute; tauto|reflexivity]].
  destruct (styles !! "linewidth"%string) eqn:El;
    [|exists "linewidth"%string; split; [vm_compute; tauto|reflexivity]].
  exfalso. destruct Hkey as [<- | [<- | [<- | []]]]; congruence.
Qed.
End CollectionEdges.

Section ScopeMore.
Import Base.
Context {Figure Gridline MplObject : Type}.
Variable methods : call Figure Gridline MplObject -> result unit.

Local Abbreviation renderer := (Base.renderer Figure Gridline MplObject).

Lemma axes_entered_state (ax : Axes Gridline) (properties : props) (s : renderer) :
  _current_ax (axes_entered methods ax properties s) = Some (Some ax)
  /\ warned (axes_entered methods ax properties s)
     = warned s ++ (if is_set (_current_ax s) then [axes_warning] else [])
  /\ _current_fig (axes_entered methods ax properties s) = _current_fig s.
Proof using Type.
  unfold axes_entered. cbn [draw_axes before_yield]. unfold bind, invoke, bind, lift.
  destruct (is_set (_current_ax s)); cbn; repeat split. now rewrite app_nil_r.
Qed.

(** X19: entering [draw_axes] while an axes scope is open issues the
    warning "axes embedded in axes: something is wrong" and does not raise;
    the inner axes become the current ones, and when the inner scope ends
    the current axes are [None], not the outer axes. *)
Theorem nested_axes_scope
    (outer_ax inner_ax : Axes Gridline) (outer_properties inner_properties : props)
    (body : renderer -> result unit * renderer) (s s' : renderer) :
  methods (open_axes_call inner_ax inner_properties) = Ok tt ->
  methods (close_axes_call inner_ax) = Ok tt ->
  let outer := axes_entered methods outer_ax outer_properties s in
  let inner := axes_entered methods inner_ax inner_properties outer in
  body inner = (Ok tt, s') ->
  warned inner = warned outer ++ [axes_warning]
  /\ _current_ax inner = Some (Some inner_ax)
  /\ exists after,
       with_statement (draw_axes methods inner_ax inner_properties) body outer
       = (Ok tt, after)
       /\ _current_ax after = Some None
       /\ warned after = warned s'.
Proof using Type.
  intros Hopen Hclose outer inner Hbody.
  destruct (axes_entered_state outer_ax outer_properties s) as (Hcur & _ & _).
  destruct (axes_entered_state inner_ax inner_properties outer) as (Hcur' & Hw & _).
  fold outer in Hcur. fold inner in Hcur', Hw.
  rewrite Hcur in Hw. cbn [is_set] in Hw.
  split; [exact Hw|]. split; [exact Hcur'|].
  eexists. split; [apply axes_scope_returns; eassumption|].
  split; reflexivity.
Qed.

End ScopeMore.

Section LegacyFacts.
Import Legacy.
Context {Figure Gridline : Type}.
Variable methods : call Figure Gridline -> result unit.

Local Abbreviation renderer := (Legacy.renderer Figure Gridline).

(** X22: the scopes of [renderer.py] behave as those of
    [renderers/base.py]: when the nested work returns, [close_axes] then
    [close_figure] are called and both current references end as [None];
    when it raises, the exception reaches the caller and the renderer is
    left as the nested work left it. *)
Theorem legacy_scopes_on_exit (fig : Figure) (ax : Axes Gridline)
    (body : renderer -> result unit * renderer) (s s' : renderer)
    (outcome : result unit) :
  methods (open_figure_call fig) = Ok tt ->
  methods (close_figure_call fig) = Ok tt ->
  methods (open_axes_call ax) = Ok tt ->
  methods (close_axes_call ax) = Ok tt ->
  body (legacy_entered methods fig ax s) = (outcome, s') ->
  match outcome with
  | Ok _ =>
      exists final,
        with_statement (draw_figure methods fig)
          (with_statement (draw_axes methods ax) body) s
        = (Ok tt, final)
        /\ _current_fig final = Some None
        /\ _current_ax final = Some None
        /\ calls final = calls s' ++ [close_axes_call ax; close_figure_call fig]
        /\ warned final = warned s'
  | Raise e =>
      with_statement (draw_figure methods fig)
        (with_statement (draw_axes methods ax) body) s
      = (Raise e, s')
  end.
Proof using Type.
  intros Hof Hcf Hoa Hca. unfold legacy_entered, with_statement.
  cbn [draw_figure draw_axes before_yield after_yield].
  unfold bind, invoke, warn_if, set_current_fig, set_current_ax.
  cbn. rewrite Hof. cbn. rewrite Hoa. cbn.
  intros ->. destruct outcome as [[]|e]; [|reflexivity].
  rewrite Hca. cbn. rewrite Hcf. cbn.
  eexists. split; [reflexivity|]. cbn. rewrite <- app_assoc. repeat split.
Qed.
End LegacyFacts.

Section Compositions.
Import Base Styles.
Context {Figure Gridline MplObject : Type}.
Variable to_rgb : pyval -> result (float * float * float).
Variable py_str : pyval -> string.
Variable methods : call Figure Gridline MplObject -> result unit.
Context {MplPath Transform MarkerStyleObj : Type}.
Variable MarkerStyle : pyval -> result MarkerStyleObj.
Variable get_path : MarkerStyleObj -> MplPath.
Variable get_transform : MarkerStyleObj -> Transform.
Variable then_scale : Transform -> pyval -> Transform.
Variable transformed : MplPath -> Transform -> MplPath.
Variable iter_segments : MplPath -> bool -> list (list float * Z).

Local Abbreviation renderer := (Base.renderer Figure Gridline MplObject).

Lemma draw_line_accepts (data : list point) (coordinates : string) (style : props)
    (mplobj : option MplObject) (color linewidth : pyval) (s : renderer) :
  style !! "color"%string = Some color ->
  style !! "linewidth"%string = Some linewidth ->
  style !! "facecolor"%string = None ->
  let c := draw_path_call data coordinates
             ("M"%string :: repeat "L"%string (length data - 1))
             (line_pathstyle color linewidth style) None "data" mplobj in
  draw_line methods data coordinates style mplobj s = (methods c, received c s).
Proof using Type.
  intros Hcolor Hwidth Hface c.
  unfold draw_line, bind, lift, dict_kw, dict_pop. rewrite Hface.
  assert (H1 : <["facecolor"%string := PStr "none"]> style !! "color"%string = Some color)
    by (rewrite lookup_insert_ne by discriminate; exact Hcolor).
  rewrite H1. cbn [fst snd].
  assert (H2 : <["edgecolor"%string := color]>
                 (delete "color"%string (<["facecolor"%string := PStr "none"]> style))
                 !! "linewidth"%string = Some linewidth).
  { rewrite lookup_insert_ne by discriminate.
    rewrite lookup_delete_ne by discriminate.
    rewrite lookup_insert_ne by discriminate. exact Hwidth. }
  rewrite H2. cbn [fst snd].
  unfold draw_path, invoke, bind, lift, received. cbn.
  destruct (methods _); reflexivity.
Qed.

(** X23: a style that [get_line_style] returns is always accepted by
    [draw_line]: exactly one [draw_path] call is made, with the line's
    converted colour as "edgecolor", its width as "edgewidth", "facecolor"
    "none", and the alpha, dasharray and zorder of the line's style. *)
Theorem line_style_draws_one_path (line : Line2D) (style : props) (w : list string)
    (data : list point) (coordinates : string) (mplobj : option MplObject)
    (s : renderer) :
  get_line_style to_rgb py_str line = (Ok style, w) ->
  exists color dasharray pathstyle,
    Utils.color_to_hex to_rgb (line_get_color line) = Ok color
    /\ fst (Utils.get_dasharray py_str (line_obj line) None) = Ok dasharray
    /\ (let c := draw_path_call data coordinates
                   ("M"%string :: repeat "L"%string (length data - 1))
                   pathstyle None "data" mplobj in
        draw_line methods data coordinates style mplobj s = (methods c, received c s))
    /\ pathstyle
       = <["edgewidth"%string := line_get_linewidth line]>
         (<["edgecolor"%string := PStr color]>
         (<["facecolor"%string := PStr "none"]>
         (<["zorder"%string := line_get_zorder line]>
         (<["dasharray"%string := PStr dasharray]>
         (<["alpha"%string := alpha_or_one (line_get_alpha line)]> ∅))))).
Proof using Type.
  unfold get_line_style.
  destruct (Utils.color_to_hex to_rgb (line_get_color line)) as [color|]; [|discriminate].
  destruct (Utils.get_dasharray py_str (line_obj line) None) as [[dasharray|] w'];
    [|discriminate].
  intros [= <- <-].
  exists color, dasharray. eexists. split; [reflexivity|]. split; [reflexivity|].
  split.
  - apply (draw_line_accepts data coordinates _ mplobj (PStr color)
             (line_get_linewidth line) s); reflexivity.
  - unfold line_pathstyle. apply map_eq. intros k.
    repeat (rewrite ?lookup_insert, ?lookup_delete; case_decide; subst;
            try reflexivity; try congruence).
Qed.
End Compositions.

Section MarkerFacts.
Import Base Styles.
Context {Figure Gridline MplObject : Type}.
Variable to_rgb : pyval -> result (float * float * float).
Variable methods : call Figure Gridline MplObject -> result unit.
Context {MplPath Transform MarkerStyleObj : Type}.
Variable MarkerStyle : pyval -> result MarkerStyleObj.
Variable get_path : MarkerStyleObj -> MplPath.
Variable get_transform : MarkerStyleObj -> Transform.
Variable then_scale : Transform -> pyval -> Transform.
Variable transformed : MplPath -> Transform -> MplPath.
Variable iter_segments : MplPath -> bool -> list (list float * Z).

Local Abbreviation renderer := (Base.renderer Figure Gridline MplObject).

Lemma for_each_vertex_calls (data vertices : list point) (pathcodes : list string)
    (pathstyle : props) (coordinates : string) (mplobj : option MplObject) :
  (forall data coordinates pathcodes style offset oc obj,
      methods (draw_path_call data coordinates pathcodes style offset oc obj) = Ok tt) ->
  forall s : renderer,
    for_each_vertex methods data vertices pathcodes pathstyle coordinates mplobj s
    = (Ok tt,
       received_all (marker_calls data vertices pathcodes pathstyle coordinates mplobj) s).
Proof using Type.
  intros Hdraw. induction data as [|vertex data IH]; intros s.
  - cbn. unfold ret. now rewrite received_all_nil.
  - cbn [for_each_vertex marker_calls map]. unfold bind at 1.
    unfold draw_path, invoke, bind, lift.
    cbn. rewrite Hdraw. rewrite IH. f_equal.
    unfold received_all. cbn. now rewrite <- app_assoc.
Qed.

Lemma draw_markers_run
    (data : list point) (coordinates : string) (style : marker_style)
    (mplobj : option MplObject) (vertices : list point) (pathcodes : list string)
    (alpha edgecolor facecolor edgewidth : pyval) (s : renderer) :
  ms_markerpath style = Some (vertices, pathcodes) ->
  ms_entries style !! "alpha"%string = Some alpha ->
  ms_entries style !! "edgecolor"%string = Some edgecolor ->
  ms_entries style !! "facecolor"%string = Some facecolor ->
  ms_entries style !! "edgewidth"%string = Some edgewidth ->
  (forall data coordinates pathcodes style offset oc obj,
      methods (draw_path_call data coordinates pathcodes style offset oc obj) = Ok tt) ->
  draw_markers methods data coordinates style mplobj s
  = (Ok tt,
     received_all
       (marker_calls data vertices pathcodes
          (marker_pathstyle alpha edgecolor facecolor edgewidth) coordinates mplobj) s).
Proof using Type.
  intros Hpath Ha He Hf Hw Hdraw.
  unfold draw_markers, bind, lift, dict_lookup.
  rewrite Hpath, Ha, He, Hf, Hw. now apply for_each_vertex_calls.
Qed.

(** X14: with a style that has the marker path and the four entries alpha,
    edgecolor, facecolor, edgewidth, and a [draw_path] that returns,
    [draw_markers] makes exactly one [draw_path] call per data point, in
    order: the marker's vertices and commands in "points" coordinates, with
    the data point as offset in the data's coordinates, and a style that
    has those four entries and "dasharray" "10,0" and nothing else. *)
Theorem draw_markers_one_call_per_point
    (data : list point) (coordinates : string) (style : marker_style)
    (mplobj : option MplObject) (vertices : list point) (pathcodes : list string)
    (alpha edgecolor facecolor edgewidth : pyval) (s : renderer) :
  ms_markerpath style = Some (vertices, pathcodes) ->
  ms_entries style !! "alpha"%string = Some alpha ->
  ms_entries style !! "edgecolor"%string = Some edgecolor ->
  ms_entries style !! "facecolor"%string = Some facecolor ->
  ms_entries style !! "edgewidth"%string = Some edgewidth ->
  (forall data coordinates pathcodes style offset oc obj,
      methods (draw_path_call data coordinates pathcodes style offset oc obj) = Ok tt) ->
  let pathstyle := marker_pathstyle alpha edgecolor facecolor edgewidth in
  let emitted : list (call Figure Gridline MplObject) :=
    marker_calls data vertices pathcodes pathstyle coordinates mplobj in
  draw_markers methods data coordinates style mplobj s
  = (Ok tt, received_all emitted s)
  /\ length emitted = length data
  /\ (forall i vertex,
        data !! i = Some vertex ->
        emitted !! i
        = Some (draw_path_call vertices "points" pathcodes pathstyle (Some vertex)
                  coordinates mplobj))
  /\ dom pathstyle
     = {["alpha"; "edgecolor"; "facecolor"; "edgewidth"; "dasharray"]}%string
  /\ pathstyle !! "dasharray"%string = Some (PStr "10,0").
Proof using Type.
  intros Hpath Ha He Hf Hw Hdraw pathstyle emitted.
  split; [now apply draw_markers_run|]. split; [apply length_map|]. split; [|split].
  - intros i vertex Hi. subst emitted. unfold marker_calls.
    rewrite list_lookup_fmap, Hi. reflexivity.
  - unfold pathstyle, marker_pathstyle. rewrite !dom_insert_L, dom_empty_L. set_solver.
  - reflexivity.
Qed.

(** X24: a style that [get_marker_style] returns is always accepted by
    [draw_markers]: with a [draw_path] that returns, one call is made per
    data point, with the encoded marker path and the line's converted
    marker colours, marker edge width and alpha. *)
Theorem marker_style_draws_markers (line : Line2D) (style : marker_style)
    (data : list point) (coordinates : string) (mplobj : option MplObject)
    (s : renderer) :
  get_marker_style to_rgb MarkerStyle get_path get_transform then_scale
    transformed iter_segments line = Ok style ->
  (forall data coordinates pathcodes style offset oc obj,
      methods (draw_path_call data coordinates pathcodes style offset oc obj) = Ok tt) ->
  exists markerstyle vertices pathcodes edgecolor facecolor,
    MarkerStyle (line_get_marker line) = Ok markerstyle
    /\ Utils.SVG_path transformed iter_segments (get_path markerstyle)
         (Some (then_scale (get_transform markerstyle) (line_get_markersize line)))
         false
       = Ok (vertices, pathcodes)
    /\ Utils.color_to_hex to_rgb (line_get_markeredgecolor line) = Ok edgecolor
    /\ Utils.color_to_hex to_rgb (line_get_markerfacecolor line) = Ok facecolor
    /\ draw_markers methods data coordinates style mplobj s
       = (Ok tt,
          received_all
            (marker_calls data vertices pathcodes
               (marker_pathstyle (alpha_or_one (line_get_alpha line))
                  (PStr edgecolor) (PStr facecolor) (line_get_markeredgewidth line))
               coordinates mplobj) s).
Proof using Type.
  unfold get_marker_style. intros Hstyle Hdraw.
  destruct (Utils.color_to_hex to_rgb (line_get_markerfacecolor line)) as [fc|] eqn:Efc;
    [|discriminate].
  destruct (Utils.color_to_hex to_rgb (line_get_markeredgecolor line)) as [ec|] eqn:Eec;
    [|discriminate].
  cbn [rbind] in Hstyle.
  destruct (MarkerStyle (line_get_marker line)) as [ms|] eqn:Ems; [|discriminate].
  cbn [rbind] in Hstyle.
  destruct (Utils.SVG_path _ _ _ _ _) as [[vertices pathcodes]|] eqn:Esvg;
    [|discriminate].
  cbn [rbind] in Hstyle. injection Hstyle as <-.
  exists ms, vertices, pathcodes, ec, fc.
  split; [reflexivity|]. split; [exact Esvg|].
  split; [reflexivity|]. split; [reflexivity|].
  apply (draw_markers_run data coordinates _ mplobj vertices pathcodes
           (alpha_or_one (line_get_alpha line)) (PStr ec) (PStr fc)
           (line_get_markeredgewidth line) s);
    [reflexivity | now simplify_map_eq | now simplify_map_eq
    | now simplify_map_eq | now simplify_map_eq | exact Hdraw].
Qed.
End MarkerFacts.

Section StaleScope.
Import Base.
Context {Figure Gridline MplObject : Type}.
Variable methods : call Figure Gridline MplObject -> result unit.

Local Abbreviation renderer := (Base.renderer Figure Gridline MplObject).

(** X20: after an axes scope whose body returned, the next [draw_axes]
    issues no warning; after an axes scope whose body raised (and left the
    current axes alone), the next [draw_axes] issues the "axes embedded in
    axes" warning although no scope is open. *)
Theorem next_scope_after_exit
    (ax next_ax : Axes Gridline) (properties next_properties : props)
    (body : renderer -> result unit * renderer) (s s' : renderer)
    (outcome : result unit) :
  methods (open_axes_call ax properties) = Ok tt ->
  methods (close_axes_call ax) = Ok tt ->
  body (axes_entered methods ax properties s) = (outcome, s') ->
  _current_ax s' = _current_ax (axes_entered methods ax properties s) ->
  exists after,
    with_statement (draw_axes methods ax properties) body s = (outcome, after)
    /\ warned (axes_entered methods next_ax next_properties after)
       = match outcome with
         | Ok _ => warned s'
         | Raise _ => warned s' ++ [axes_warning]
         end.
Proof using Type.
  intros Hopen Hclose Hbody Hkept.
  destruct (draw_axes_enters methods ax properties s Hopen) as [Henter Hcur].
  destruct outcome as [[]|e].
  - eexists. split; [apply axes_scope_returns; eassumption|].
    unfold axes_entered. cbn [draw_axes before_yield].
    unfold bind, invoke, bind, lift. reflexivity.
  - exists s'. split; [eapply scope_body_raises; eassumption|].
    rewrite Hcur in Hkept.
    unfold axes_entered. cbn [draw_axes before_yield].
    unfold bind, invoke, bind, lift. rewrite Hkept. reflexivity.
Qed.
End StaleScope.

(** * The further facts on concrete inputs *)

Lemma many_to_one_lookup_witness :
  dict_get (PStr "-") (Utils.many_to_one two_groups) = Some "10,0"%string.
Proof.
  apply (proj1 (many_to_one_lookup two_groups "-") [PStr "solid"; PStr "-"] "10,0"%string).
  - now left.
  - right. now left.
  - intros keys' v' [[= <- <-] | [[= <- <-] | []]] Hk; [reflexivity|].
    destruct Hk as [[=] | [[=] | []]].
Defined.

Lemma get_dasharray_quiet_witness :
  In "6,6"%string dash_patterns.
Proof.
  apply (proj2 (get_dasharray_quiet str_of_int dashed_object None)).
  - now left.
  - reflexivity.
Defined.

Lemma get_dasharray_indexed_witness :
  Utils.get_dasharray str_of_int collection_object (Some 1) = (Ok "2,2"%string, [])
  /\ Utils.get_dasharray str_of_int collection_object (Some (-1)) = (Ok "2,2"%string, [])
  /\ Utils.get_dasharray str_of_int collection_object None
     = (Raise (TypeError "unhashable type"), []).
Proof.
  exact (get_dasharray_indexed str_of_int collection_object
           [PStr "solid"; PStr "dotted"] 1 (PStr "dotted")
           (or_introl eq_refl) eq_refl eq_refl eq_refl).
Defined.

Lemma SVG_path_returns_letters_witness :
  length ["M"; "L"; "L"; "Z"]%string = length closed_triangle
  /\ Forall (fun letter => In letter svg_letters) ["M"; "L"; "L"; "Z"]%string
  /\ (2 * length [(0, 0); (1, 0); (0, 1)]%float = kept_coordinates closed_triangle)%nat.
Proof.
  exact (SVG_path_returns_letters segments_transformed segments_iter closed_triangle
           None false [(0, 0); (1, 0); (0, 1)]%float ["M"; "L"; "L"; "Z"]%string
           eq_refl).
Defined.

Lemma SVG_path_concatenation_witness :
  Utils.SVG_path segments_transformed segments_iter (one_move ++ one_line) None false
  = Ok ([(0, 0)]%float ++ [(1, 1)]%float, ["M"]%string ++ ["L"]%string).
Proof.
  exact (SVG_path_concatenation segments_transformed segments_iter
           (one_move ++ one_line) one_move one_line false
           [(0, 0)]%float [(1, 1)]%float ["M"]%string ["L"]%string
           eq_refl eq_refl eq_refl).
Defined.

Lemma SVG_path_unknown_code_witness :
  Utils.SVG_path segments_transformed segments_iter move_then_stop None false
  = Raise (KeyError (Utils.py_repr_Z Utils.Path.STOP)).
Proof.
  apply (SVG_path_unknown_code segments_transformed segments_iter move_then_stop
           None false one_move [] [0; 0]%float Utils.Path.STOP).
  - reflexivity.
  - reflexivity.
  - vm_compute. intros [H | [H | [H | [H | [H | []]]]]]; discriminate H.
Defined.

Lemma color_to_hex_keeps_channels_witness :
  exists h, Utils.color_to_hex hex_only_to_rgb (PStr "#1f77b4") = Ok h
            /\ parse_hex_color h = Some (31, 119, 180).
Proof.
  exact (color_to_hex_keeps_channels hex_only_to_rgb "#1f77b4" 31 119 180
           hex_only_reads_hex eq_refl).
Defined.

Lemma color_to_hex_ignores_case_witness :
  Utils.color_to_hex hex_only_to_rgb (PStr "#1f77b4")
  = Utils.color_to_hex hex_only_to_rgb (PStr "#1F77B4").
Proof.
  apply (color_to_hex_ignores_case hex_only_to_rgb "#1f77b4" "#1F77B4"
           hex_only_reads_hex).
  - discriminate.
  - reflexivity.
Defined.

Lemma styles_alpha_never_none_witness :
  alpha_entry
    (<["zorder"%string := PInt 3]>
     (<["rotation"%string := PInt 0]>
     (<["valign"%string := PStr "baseline"]>
     (<["halign"%string := PStr "left"]>
     (<["color"%string := PStr "#1F77B4"]>
     (<["fontsize"%string := PInt 12]>
     (<["alpha"%string := PInt 1]> ∅)))))))
    PNone.
Proof.
  apply (proj1 (proj2 (proj2
           (styles_alpha_never_none hex_only_to_rgb str_of_int marker_segments
              (fun p : segments_path => p) (fun _ => tt) (fun t _ => t)
              segments_transformed segments_iter)))
           a_text).
  reflexivity.
Defined.

Lemma unknown_linestyle_breaks_styles_witness :
  Styles.get_line_style hex_only_to_rgb str_of_int (line_with unknown_linestyle)
  = (Raise (NameError "warnings"), []).
Proof.
  apply (proj1 (unknown_linestyle_breaks_styles hex_only_to_rgb str_of_int)
           (line_with unknown_linestyle) "#1F77B4"%string).
  - now left.
  - reflexivity.
  - reflexivity.
  - reflexivity.
Defined.

Lemma tickformat_hidden_labels_witness :
  exists props,
    Styles.get_axis_properties an_xaxis = Ok props
    /\ props !! "tickformat"%string = Some (PStr "").
Proof.
  destruct (Styles.get_axis_properties an_xaxis) as [props|] eqn:E; [|discriminate E].
  exists props. split; [reflexivity|].
  apply (proj1 (tickformat_hidden_labels an_xaxis props E)).
  right. repeat constructor.
Defined.

Lemma draw_line_rejected_styles_witness :
  Base.draw_line all_return three_points "data" (<["color"%string := PStr "#0000FF"]> ∅)
    None fresh_renderer
  = (Raise (KeyError "linewidth"), fresh_renderer).
Proof.
  apply (proj2 (proj2 (draw_line_rejected_styles all_return three_points "data"
                         (<["color"%string := PStr "#0000FF"]> ∅) None fresh_renderer))).
  - reflexivity.
  - eexists. reflexivity.
  - reflexivity.
Defined.

Lemma draw_markers_one_call_per_point_witness :
  Base.draw_markers all_return two_points "data" a_marker_style None fresh_renderer
  = (Ok tt,
     received_all
       (marker_calls two_points [(0, 0); (1, 0)]%float ["M"; "L"]%string
          (marker_pathstyle (PInt 1) (PStr "#000000") (PStr "#1F77B4") (PInt 1))
          "data" None)
       fresh_renderer).
Proof.
  apply (draw_markers_one_call_per_point all_return two_points "data" a_marker_style
           None [(0, 0); (1, 0)]%float ["M"; "L"]%string
           (PInt 1) (PStr "#000000") (PStr "#1F77B4") (PInt 1) fresh_renderer);
    reflexivity.
Defined.

Lemma draw_markers_missing_entry_witness :
  exists missing,
    In missing ("markerpath"%string :: marker_keys)
    /\ Base.draw_markers all_return two_points "data" marker_style_without_alpha None
         fresh_renderer
       = (Raise (KeyError missing), fresh_renderer).
Proof.
  apply (proj2 (draw_markers_missing_entry all_return two_points "data"
                  marker_style_without_alpha None fresh_renderer) "alpha"%string).
  - now left.
  - reflexivity.
Defined.

Lemma abstract_draw_path_reached_witness :
  Base.draw_markers Base.Renderer_methods [] "data" a_marker_style None fresh_renderer
  = (Ok tt, fresh_renderer).
Proof.
  apply (abstract_draw_path_reached "data" a_marker_style None
           [(0, 0); (1, 0)]%float ["M"; "L"]%string
           (PInt 1) (PStr "#000000") (PStr "#1F77B4") (PInt 1) fresh_renderer);
    reflexivity.
Defined.

Lemma path_collection_empty_sequence_witness :
  Base.draw_path_collection hex_only_to_rgb no_transform all_return
    three_paths "data" None [] "data" "after" collection_styles None fresh_renderer
  = (Ok tt, fresh_renderer).
Proof.
  apply (path_collection_empty_sequence hex_only_to_rgb no_transform all_return
           three_paths "data" None [] "data" "after" collection_styles None
           [PStr "#000000"; PStr "#FFFFFF"] [PInt 1; PInt 2] [] fresh_renderer).
  - discriminate.
  - reflexivity.
  - reflexivity.
  - reflexivity.
  - right. now left.
Defined.

Lemma path_collection_missing_style_witness :
  exists missing,
    In missing collection_keys
    /\ Base.draw_path_collection hex_only_to_rgb no_transform all_return
         three_paths "data" None five_offsets "data" "after" styles_without_linewidth
         None fresh_renderer
       = (Raise (KeyError missing), fresh_renderer).
Proof.
  apply (path_collection_missing_style hex_only_to_rgb no_transform all_return
           three_paths "data" None five_offsets "data" "after"
           styles_without_linewidth None "linewidth" fresh_renderer).
  - discriminate.
  - right. right. now left.
  - reflexivity.
Defined.

Lemma nested_axes_scope_witness :
  Base.warned (axes_entered all_return an_axes ∅
                 (axes_entered all_return an_axes ∅ fresh_renderer))
  = [axes_warning].
Proof.
  exact (proj1 (nested_axes_scope all_return an_axes an_axes ∅ ∅ returning_body
                  fresh_renderer _ eq_refl eq_refl eq_refl)).
Defined.

Lemma next_scope_after_exit_witness :
  exists after,
    with_statement (Base.draw_axes all_return an_axes ∅) failing_body fresh_renderer
    = (Raise (ValueError "nested drawing failed"), after)
    /\ Base.warned (axes_entered all_return an_axes ∅ after) = [axes_warning].
Proof.
  exact (next_scope_after_exit all_return an_axes an_axes ∅ ∅ failing_body
           fresh_renderer _ (Raise (ValueError "nested drawing failed"))
           eq_refl eq_refl eq_refl eq_refl).
Defined.


Lemma legacy_scopes_on_exit_witness :
  with_statement (Legacy.draw_figure (fun _ => Ok tt) 7%nat)
    (with_statement (Legacy.draw_axes (fun _ => Ok tt) an_axes)
       (fun s => (Raise (ValueError "nested drawing failed"), s)))
    fresh_legacy_renderer
  = (Raise (ValueError "nested drawing failed"),
     legacy_entered (fun _ => Ok tt) 7%nat an_axes fresh_legacy_renderer).
Proof.
  exact (legacy_scopes_on_exit (fun _ => Ok tt) 7%nat an_axes
           (fun s => (Raise (ValueError "nested drawing failed"), s))
           fresh_legacy_renderer _ (Raise (ValueError "nested drawing failed"))
           eq_refl eq_refl eq_refl eq_refl eq_refl).
Defined.

Lemma line_style_draws_one_path_witness :
  exists color dasharray pathstyle,
    Utils.color_to_hex hex_only_to_rgb (PStr "#1f77b4") = Ok color
    /\ fst (Utils.get_dasharray str_of_int dashed_object None) = Ok dasharray
    /\ Base.draw_line all_return three_points "data"
         (<["zorder"%string := PInt 2]>
          (<["dasharray"%string := PStr "6,6"]>
          (<["linewidth"%string := PInt 2]>
          (<["color"%string := PStr "#1F77B4"]>
          (<["alpha"%string := PInt 1]> ∅)))))
         None fresh_renderer
       = (Ok tt,
          received
            (Base.draw_path_call three_points "data" ["M"; "L"; "L"]%string
               pathstyle None "data" None) fresh_renderer)
    /\ pathstyle
       = <["edgewidth"%string := PInt 2]>
         (<["edgecolor"%string := PStr color]>
         (<["facecolor"%string := PStr "none"]>
         (<["zorder"%string := PInt 2]>
         (<["dasharray"%string := PStr dasharray]>
         (<["alpha"%string := PInt 1]> ∅))))).
Proof.
  exact (line_style_draws_one_path hex_only_to_rgb str_of_int all_return
           (line_with dashed_object) _ [] three_points "data" None fresh_renderer
           eq_refl).
Defined.

Lemma marker_style_draws_markers_witness :
  exists (markerstyle : segments_path) vertices pathcodes edgecolor facecolor,
    marker_segments (PStr "o") = Ok markerstyle
    /\ Utils.SVG_path segments_transformed segments_iter markerstyle (Some tt) false
       = Ok (vertices, pathcodes)
    /\ Utils.color_to_hex hex_only_to_rgb (PStr "#000000") = Ok edgecolor
    /\ Utils.color_to_hex hex_only_to_rgb (PStr "#1f77b4") = Ok facecolor
    /\ Base.draw_markers all_return two_points "data"
         {| Base.ms_entries :=
              <["zorder"%string := PInt 2]>
              (<["marker"%string := PStr "o"]>
              (<["edgewidth"%string := PInt 1]>
              (<["edgecolor"%string := PStr "#000000"]>
              (<["facecolor"%string := PStr "#1F77B4"]>
              (<["alpha"%string := PInt 1]> ∅)))));
            Base.ms_markerpath := Some ([(0, 0); (1, 0)]%float, ["M"; "L"]%string) |}
         None fresh_renderer
       = (Ok tt,
          received_all
            (marker_calls two_points vertices pathcodes
               (marker_pathstyle (PInt 1) (PStr edgecolor) (PStr facecolor) (PInt 1))
               "data" None)
            fresh_renderer).
Proof.
  exact (marker_style_draws_markers hex_only_to_rgb all_return marker_segments
           (fun p : segments_path => p) (fun _ => tt) (fun t _ => t)
           segments_transformed segments_iter (line_with dashed_object) _
           two_points "data" None fresh_renderer eq_refl (fun _ _ _ _ _ _ _ => eq_refl)).
Defined.

Lemma get_axis_properties_outcome_witness :
  exists props,
    Styles.get_axis_properties an_xaxis = Ok props
    /\ props !! "position"%string = Some (PStr "bottom")
    /\ props !! "nticks"%string = Some (PInt 3).
Proof.
  destruct (get_axis_properties_outcome an_xaxis)
    as (props & position & Hrun & _ & Hpos & _ & Hdefault & Hn & _).
  exists props. split; [exact Hrun|]. split; [|exact Hn].
  rewrite Hpos, (Hdefault eq_refl). reflexivity.
Defined.
